(** * deployqb: the deployment pipeline of the command-line tool

    A shallow embedding of [src/index.js], [src/lib/qb.js],
    [src/lib/qbcliTemplate.js] and the variant [src/unnamed/part_000],
    and the properties of the deployment pipeline proved over it.

    JavaScript strings are modelled by [string]; every [ascii] stands for
    one UTF-16 code unit below 256.  Objects that the code uses as
    string-keyed maps ([process.env], the Configstore, the file system)
    are finite maps.  The code is asynchronous but strictly sequential
    (every promise is awaited), so it is embedded in a state-and-exception
    monad over the world the process runs in. *)

From Stdlib Require Import String Ascii List Bool Arith Lia.
From stdpp Require Import base option list gmap strings.

Import ListNotations.
Local Open Scope string_scope.
Set Warnings "-register-all".

(** ** JavaScript values *)

Module Js.

(** The values that reach [addUpdateDbPage]: strings, arrays, and
    [undefined] (an index out of range). *)
Inductive JsVal : Type :=
| JUndefined
| JStr (s : string)
| JArr (elems : list JsVal).

(** Errors raised by the code or by its collaborators; [exnMessage] is
    the [message] property of the error object. *)
Inductive Exn : Type :=
| TypeError (message : string)
| AxiosError (message : string)
| FsError (message : string)
| KeytarError (message : string)
| ReferenceError (message : string)
| MissingPrefix.

Definition exnMessage (e : Exn) : string :=
  match e with
  | TypeError m | AxiosError m | FsError m | KeytarError m
  | ReferenceError m => m
  | MissingPrefix => "MissingPrefix"
  end.

(** [`${v}`]: ToString.  An array is joined with commas, and an
    [undefined] element of an array prints as the empty string. *)
Fixpoint toString (v : JsVal) : string :=
  match v with
  | JUndefined => "undefined"
  | JStr s => s
  | JArr elems =>
      (fix join (l : list JsVal) (first : bool) : string :=
         match l with
         | [] => ""
         | x :: r =>
             (if first then "" else ",")
             ++ match x with JUndefined => "" | _ => toString x end
             ++ join r false
         end) elems true
  end.

(** [`${x}`] for a property that is a string when present. *)
Definition str (x : option string) : string :=
  match x with
  | Some s => s
  | None => "undefined"
  end.

(** Truthiness of such a property: present and not the empty string. *)
Definition truthy (x : option string) : bool :=
  match x with
  | Some "" | None => false
  | Some _ => true
  end.

(** [v[i]]: reading an index of [undefined] is a [TypeError]. *)
Definition getIndex (v : JsVal) (i : nat) : Exn + JsVal :=
  match v with
  | JArr elems => inr (default JUndefined (elems !! i))
  | JStr s =>
      inr match String.get i s with
          | Some c => JStr (String c EmptyString)
          | None => JUndefined
          end
  | JUndefined => inl (TypeError "Cannot read properties of undefined")
  end.

End Js.
Import Js.

(** ** Data model *)

(** The [isIndexFile] property of an entry of [filesConf]: absent, a
    boolean (as in the template), or a string (as the loader expects). *)
Inductive JsFlag : Type :=
| FlagAbsent
| FlagBool (b : bool)
| FlagStr (s : string).

Record FileConf : Type := mkFileConf {
  filename : string;
  path : option string;
  dependencies : option (list nat);
  isIndexFile : JsFlag
}.

(** The parsed contents of [qbcli.json].  A property that is missing
    from the file reads as [undefined], here [None]. *)
Record Manifest : Type := mkManifest {
  urlQueryString : option string;
  repositoryId : option string;
  prodPrefix : option string;
  devPrefix : option string;
  dbid : option string;
  devDbid : option string;
  devAndProdQuickBaseApplications : option string;
  realm : option string;
  filesConf : option (list FileConf)
}.

(** The per-developer record kept in the Configstore. *)
Record DevConfig : Type := mkDevConfig {
  customPrefixFeature : option string
}.

Inductive DeploymentType : Type := Dev | Prod | Feat.

Definition deploymentTypeName (t : DeploymentType) : string :=
  match t with
  | Dev => "dev"
  | Prod => "prod"
  | Feat => "feat"
  end.

(** Modelled from the spec: [lib/enums] is missing; section 6 lists the
    commands.  One tag per constant that the code names, and [CmdOther]
    for any other word of the command line. *)
Inductive Command : Type :=
| DEPLOYQB_INIT_CMD
| DEPLOY_DEV_CMD
| DEPLOY_PROD_CMD
| DEPLOY_FEAT_CMD
| LAUNCH_PROD_CMD
| LAUNCH_FEAT_CMD
| LAUNCH_DEV_CMD
| DEPLOYQB_HELP
| EDIT_DEV_PREFIX_CMD
| EDIT_PROD_PREFIX_CMD
| EDIT_FEAT_PREFIX_CMD
| GENERATE_LINKS_CMD
| CmdOther (word : string).

Definition Command_eqb (a b : Command) : bool :=
  match a, b with
  | DEPLOYQB_INIT_CMD, DEPLOYQB_INIT_CMD
  | DEPLOY_DEV_CMD, DEPLOY_DEV_CMD
  | DEPLOY_PROD_CMD, DEPLOY_PROD_CMD
  | DEPLOY_FEAT_CMD, DEPLOY_FEAT_CMD
  | LAUNCH_PROD_CMD, LAUNCH_PROD_CMD
  | LAUNCH_FEAT_CMD, LAUNCH_FEAT_CMD
  | LAUNCH_DEV_CMD, LAUNCH_DEV_CMD
  | DEPLOYQB_HELP, DEPLOYQB_HELP
  | EDIT_DEV_PREFIX_CMD, EDIT_DEV_PREFIX_CMD
  | EDIT_PROD_PREFIX_CMD, EDIT_PROD_PREFIX_CMD
  | EDIT_FEAT_PREFIX_CMD, EDIT_FEAT_PREFIX_CMD
  | GENERATE_LINKS_CMD, GENERATE_LINKS_CMD => true
  | CmdOther x, CmdOther y => String.eqb x y
  | _, _ => false
  end.

(** [args._.includes(c)] *)
Definition includes (args : list Command) (c : Command) : bool :=
  existsb (Command_eqb c) args.

(** An HTTP request as handed to axios. *)
Record Request : Type := mkRequest {
  method : string;
  url : string;
  headers : list (string * string);
  data : string
}.

(** What the process does to the outside, in the order it happens.  The
    spinner and the screen clearing are cosmetic and leave no event. *)
Inductive Event : Type :=
| AlertError (msg : string)
| AlertSuccess (msg : string)
| AlertWarning (msg : string)
| ReadFile (name : string)
| Confirm (t : DeploymentType)
| Post (r : Request)
| Open (address : string).

(** The world of one invocation. *)
Record World : Type := mkWorld {
  env : gmap string string;
  qbcliJson : option Manifest;
  disk : gmap string string;
  configstore : gmap (option string) DevConfig;
  keychain : gmap string (option string);
  trace : list Event
}.

(** The answers of the prompt library, filled in at [init] by the
    variant [part_000]. *)
Record UserInput : Type := mkUserInput {
  in_repositoryId : option string;
  in_usertoken : option string;
  in_apptoken : option string;
  in_devAndProdQuickBaseApplications : option string;
  in_devUsertoken : option string;
  in_devApptoken : option string;
  in_customPrefix : option string;
  in_customPrefixProduction : option string;
  in_customPrefixFeature : option string
}.

Inductive AxiosResult : Type :=
| Resolved
| Rejected (message : string).

(** The collaborators whose answers the code cannot control: the user
    at the confirmation prompt, the remote service (which sees the
    requests made so far and the new one), the file system when the
    manifest is written, the prompts of [init] and the keychain. *)
Record Oracle : Type := mkOracle {
  confirmAnswer : DeploymentType -> string;
  remote : list Request -> Request -> AxiosResult;
  saveJSONFailure : option string;
  promptInput : option Manifest -> UserInput;
  keytarFailure : option string
}.

(** ** The state-and-exception monad *)

Inductive Outcome (A : Type) : Type :=
| Returned (a : A)
| Thrown (e : Exn).
Arguments Returned {A} a.
Arguments Thrown {A} e.

Definition M (A : Type) : Type := World -> Outcome A * World.

Definition ret {A} (a : A) : M A := fun w => (Returned a, w).

Definition bind {A B} (c : M A) (k : A -> M B) : M B :=
  fun w =>
    match c w with
    | (Returned a, w') => k a w'
    | (Thrown e, w') => (Thrown e, w')
    end.

Definition throw {A} (e : Exn) : M A := fun w => (Thrown e, w).

(** [try { c } catch (error) { h error }] *)
Definition tryCatch {A} (c : M A) (h : Exn -> M A) : M A :=
  fun w =>
    match c w with
    | (Returned a, w') => (Returned a, w')
    | (Thrown e, w') => h e w'
    end.

Definition getWorld : M World := fun w => (Returned w, w).

Definition modifyWorld (f : World -> World) : M unit :=
  fun w => (Returned tt, f w).

Definition liftE {A} (r : Exn + A) : M A :=
  match r with
  | inl e => throw e
  | inr a => ret a
  end.

(** Reading a name that no enclosing scope declares. *)
Definition unbound {A} (name : string) : M A :=
  throw (ReferenceError (name ++ " is not defined")).

Declare Scope js_scope.
Delimit Scope js_scope with js.
Notation "x <- c ;; k" := (bind c (fun x => k))
  (at level 100, c at next level, right associativity) : js_scope.
Notation "c ;;; k" := (bind c (fun _ => k))
  (at level 100, right associativity) : js_scope.
Local Open Scope js_scope.

(** The world after the events [es] have happened. *)
Definition addTrace (w : World) (es : list Event) : World :=
  mkWorld (env w) (qbcliJson w) (disk w) (configstore w) (keychain w)
          (trace w ++ es).

Definition emit (e : Event) : M unit :=
  modifyWorld (fun w => addTrace w [e]).

(** A [for] loop with an awaited body. *)
Fixpoint forEach {A} (l : list A) (body : A -> M unit) : M unit :=
  match l with
  | [] => ret tt
  | x :: r => body x ;;; forEach r body
  end.

Definition requestsOf (t : list Event) : list Request :=
  omap (fun e => match e with Post r => Some r | _ => None end) t.

Definition readsOf (t : list Event) : list string :=
  omap (fun e => match e with ReadFile n => Some n | _ => None end) t.

Definition alertsOf (t : list Event) : list Event :=
  omap (fun e => match e with
                 | AlertError _ | AlertSuccess _ | AlertWarning _ => Some e
                 | _ => None
                 end) t.

Definition setEnv (k v : string) (w : World) : World :=
  mkWorld (<[k := v]> (env w)) (qbcliJson w) (disk w) (configstore w)
          (keychain w) (trace w).

Definition setQbcliJson (m : Manifest) (w : World) : World :=
  mkWorld (env w) (Some m) (disk w) (configstore w) (keychain w) (trace w).

Definition setConfig (k : option string) (c : DevConfig) (w : World) : World :=
  mkWorld (env w) (qbcliJson w) (disk w) (<[k := c]> (configstore w))
          (keychain w) (trace w).

Definition setSecret (k : string) (v : option string) (w : World) : World :=
  mkWorld (env w) (qbcliJson w) (disk w) (configstore w)
          (<[k := v]> (keychain w)) (trace w).

(** ** Collaborators that are not part of the sources at hand *)

Module Files.

(** Modelled from the spec: [lib/files] is missing; section 1 of the
    spec calls its functions raw filesystem read helpers.
    [fileFolderExists name] tells whether [name] is on the disk. *)
Definition fileFolderExists (name : string) : M bool :=
  w <- getWorld ;; ret (bool_decide (is_Some (disk w !! name))).

(** Modelled from the spec: [lib/files] is missing; [getFileContents]
    reads the file and returns what it holds, letter for letter. *)
Definition getFileContents (name : string) : M string :=
  w <- getWorld ;;
  emit (ReadFile name) ;;;
  match disk w !! name with
  | Some contents => ret contents
  | None => throw (FsError "ENOENT: no such file or directory")
  end.

(** Modelled from the spec: [lib/files] is missing; [saveJSONToFile]
    replaces the manifest on the disk, or throws when the file system
    refuses the write. *)
Definition saveJSONToFile (O : Oracle) (d : Manifest) : M unit :=
  match saveJSONFailure O with
  | Some msg => throw (FsError msg)
  | None => modifyWorld (setQbcliJson d)
  end.

End Files.

Module Helpers.

Record PrefixConfig : Type := mkPrefixConfig {
  customPrefix : option string;
  customPrefixProduction : option string;
  pc_customPrefixFeature : option string
}.

(** Modelled from the spec: [lib/helpers] is missing.  Section 4.2:
    production maps to the manifest's production prefix, development
    to its development prefix, feature to the per-developer feature
    prefix with default F when it was never set. *)
Definition resolvePrefix (c : PrefixConfig) (t : DeploymentType)
  : option string :=
  match t with
  | Prod => customPrefixProduction c
  | Dev => customPrefix c
  | Feat => Some (default "F" (pc_customPrefixFeature c))
  end.

(** Modelled from the spec: [lib/helpers] is missing.  Section 4.2:
    a pure function of the deployment type and the prefixes, which
    fails with MissingPrefix when the resolved prefix is empty (a
    prefix that is absent counts as empty). *)
Definition prefixGenerator (c : PrefixConfig) (t : DeploymentType)
    (repositoryId : option string) : Exn + string :=
  match resolvePrefix c t with
  | None | Some "" => inl MissingPrefix
  | Some p => inr p
  end.

End Helpers.

(** ** [src/lib/qb.js] *)

Module QbJs.

Definition nl : string := String (ascii_of_nat 10) EmptyString.

Fixpoint spaces (n : nat) : string :=
  match n with
  | 0 => ""
  | S k => " " ++ spaces k
  end.

Definition requestHeaders : list (string * string) :=
  [ ("X_QUICKBASE_RETURN_HTTP_ERROR", "true");
    ("QUICKBASE-ACTION", "API_AddReplaceDBPage");
    ("Content-Type", "application/xml") ].

Definition requestUrl (dbid realm : option string) : string :=
  str realm ++ "/db/" ++ str dbid.

Definition requestData (pagename pagebody : JsVal)
    (usertoken : option string) (apptokenString : string) : string :=
  nl ++ spaces 12 ++ "<qdbapi>"
  ++ nl ++ spaces 16 ++ "<pagename>" ++ toString pagename ++ "</pagename>"
  ++ nl ++ spaces 16 ++ "<pagetype>1</pagetype>"
  ++ nl ++ spaces 16 ++ "<pagebody><![CDATA[" ++ toString pagebody
                     ++ "]]></pagebody>"
  ++ nl ++ spaces 16 ++ "<usertoken>" ++ str usertoken ++ "</usertoken>"
  ++ nl ++ spaces 16 ++ apptokenString
  ++ nl ++ spaces 12 ++ "</qdbapi>"
  ++ nl ++ spaces 8.

(** The request that one call builds. *)
Definition buildRequest (dbid realm usertoken apptoken : option string)
    (pagename pagebody : JsVal) : Request :=
  let apptokenString :=
    if truthy apptoken
    then "<apptoken>" ++ str apptoken ++ "</apptoken>"
    else "" in
  {| method := "post";
     url := requestUrl dbid realm;
     headers := requestHeaders;
     data := requestData pagename pagebody usertoken apptokenString |}.

(** [axios(config)]: the request goes out, and the promise settles as
    the remote service decides. *)
Definition axios (O : Oracle) (r : Request) : M unit :=
  w <- getWorld ;;
  emit (Post r) ;;;
  match remote O (requestsOf (trace w)) r with
  | Resolved => ret tt
  | Rejected m => throw (AxiosError m)
  end.

Definition addUpdateDbPage (O : Oracle)
    (dbid realm usertoken apptoken : option string)
    (formattedFiles : JsVal) : M unit :=
  pagebody <- liftE (getIndex formattedFiles 1) ;;
  pagename <- liftE (getIndex formattedFiles 0) ;;
  axios O (buildRequest dbid realm usertoken apptoken pagename pagebody).

End QbJs.

(** ** [src/lib/qbcliTemplate.js] *)

Module Template.

Definition exampleFilesConf : list FileConf :=
  [ {| filename := "exampleFileName.js";
       path := Some "./example/";
       dependencies := None;
       isIndexFile := FlagAbsent |};
    {| filename := "example.html";
       path := Some "./examplefolder/subfolder/";
       dependencies := Some [1; 3];
       isIndexFile := FlagBool false |} ].

Definition qbcliTemplate : M Manifest :=
  w <- getWorld ;;
  let e := env w in
  let devAndProd := e !! "DEV_AND_PROD_QUICKBASE_APPLICATIONS" in
  ret {| urlQueryString := Some "";
         repositoryId := e !! "REPOSITORY_ID";
         prodPrefix := e !! "CUSTOM_PREFIX_PRODUCTION";
         devPrefix := e !! "CUSTOM_PREFIX";
         dbid := e !! "DBID";
         devDbid :=
           if bool_decide (devAndProd = Some "yes")
           then e !! "DEV_DBID" else Some "";
         devAndProdQuickBaseApplications := devAndProd;
         realm := e !! "REALM";
         filesConf := Some exampleFilesConf |}.

End Template.

(** ** Messages shared by [src/index.js] and [src/unnamed/part_000] *)

Definition MSG_NOT_AT_ROOT : string :=
  "This deployqb command can only be run from the root of your directory.".

Definition MSG_NO_FILES_LISTED : string :=
  "You must list files to deploy in your qbcli.json.".

Definition MSG_NOT_INITIALIZED : string :=
  "Project may never have been initialized - please run deployqb init.".

Definition MSG_NOTHING_LOADED : string :=
  "Please check your qbcli.json in the root of your project. Make sure you have mapped the correct path to all of the files you are trying to deploy. Also, check all filenames match what is in those directories, and that all files have content (this tool will not deploy blank files - add a comment in the file if you would like to deploy without code).".

Definition MSG_LOADING_THREW : string :=
  "Please check your qbcli.json in the root of your project. Make sure you have mapped the correct path to all of the files you are trying to deploy. Also, check all filenames match what is in those directories and make sure those files have content (this tool will not deploy blank files - add a comment if you would like to deploy without code).".

Definition MSG_INIT_DONE : string :=
  "A qbcli.json file has been created in the root of your project directory. Please update this file to include all files that you need to deploy to QB".

Definition MSG_DEPLOYED (t : DeploymentType) : string :=
  "Files have been successfully deployed to the " ++ deploymentTypeName t
  ++ " environment.".

(** One loaded file: [[fileName, fileContents, isIndexFile]]. *)
Definition Loaded : Type := string * string * bool.

(** [fileConf.isIndexFile === 'yes'] *)
Definition isYes (f : JsFlag) : bool :=
  match f with
  | FlagStr s => String.eqb s "yes"
  | _ => false
  end.

(** [if (!process.env[k]) { process.env[k] = v; }] *)
Definition defaultEnv (k v : string) : M unit :=
  w <- getWorld ;;
  if truthy (env w !! k) then ret tt else modifyWorld (setEnv k v).

(** The two assignments of the [init] branch that carry the previous
    manifest over into the fresh template. *)
Definition keepPrior (existingQbCliConfigs d : Manifest) : Manifest :=
  {| urlQueryString := urlQueryString existingQbCliConfigs;
     repositoryId := repositoryId d;
     prodPrefix := prodPrefix d;
     devPrefix := devPrefix d;
     dbid := dbid d;
     devDbid := devDbid d;
     devAndProdQuickBaseApplications := devAndProdQuickBaseApplications d;
     realm := realm d;
     filesConf := filesConf existingQbCliConfigs |}.

(** The callback of [arrayOfFileContents.map] together with the variable
    [indexFileName] that it assigns. *)
Definition formatStep (prefix : string)
    (acc : list JsVal * option string) (x : Loaded)
  : list JsVal * option string :=
  let '(fileName, fileContents, isIndexFile) := x in
  ((fst acc ++ [JArr [JStr (prefix ++ fileName); JStr fileContents]])%list,
   if isIndexFile then Some fileName else snd acc).

(** [formattedFiles] and the final value of [indexFileName]. *)
Definition formatFiles (prefix : string) (arrayOfFileContents : list Loaded)
  : list JsVal * option string :=
  fold_left (formatStep prefix) arrayOfFileContents ([], None).

(** ** [src/index.js] *)

Module IndexJs.

(** The Configstore is kept as a flat map from identifiers to records.
    That is what the library does for an identifier that is a string
    without a dot, in a store whose keys are such strings; the library
    takes a dot for a path separator and an undefined key for the whole
    store, so the properties of the store are stated for [plainId]
    identifiers. *)
Definition saveFeaturePrefix (repositoryId customPrefixFeature : option string)
  : M unit :=
  modifyWorld (setConfig repositoryId (mkDevConfig customPrefixFeature)).

Definition getDeploymentType (args : list Command) : option DeploymentType :=
  if includes args DEPLOY_DEV_CMD then Some Dev
  else if includes args DEPLOY_PROD_CMD then Some Prod
  else if includes args DEPLOY_FEAT_CMD then Some Feat
  else None.

(** As for [saveFeaturePrefix]: the record of the flat map, which is
    what the library returns for a [plainId] identifier in a
    [plainStore]. *)
Definition getConfiguration (repositoryId : option string)
  : M (option DevConfig) :=
  w <- getWorld ;; ret (configstore w !! repositoryId).

(** The loop of [getAllFileContents]; [acc] is [arrayOfFileContents]. *)
Fixpoint loadFrom (filesConf : list FileConf) (acc : list Loaded)
  : M (list Loaded) :=
  match filesConf with
  | [] => ret acc
  | fileConf :: rest =>
      let fileName := filename fileConf in
      present <- Files.fileFolderExists fileName ;;
      if (present : bool) then
        fileContents <- Files.getFileContents fileName ;;
        let isIndexFile := isYes (isIndexFile fileConf) in
        loadFrom rest (acc ++ [(fileName, fileContents, isIndexFile)])%list
      else loadFrom rest acc
  end.

Definition getAllFileContents (filesConf : list FileConf) (prefix : string)
  : M (list Loaded) :=
  loadFrom filesConf [].

Definition handleAPICalls (O : Oracle) (deploymentType : DeploymentType)
    (formattedFiles : JsVal) (existingQbCliConfigs : Manifest) : M unit :=
  w <- getWorld ;;
  let usertoken := env w !! "USERTOKEN" in
  let apptoken := env w !! "APP_TOKEN" in
  tryCatch
    (QbJs.addUpdateDbPage O (dbid existingQbCliConfigs)
       (realm existingQbCliConfigs) usertoken apptoken formattedFiles ;;;
     emit (AlertSuccess (MSG_DEPLOYED deploymentType)))
    (fun error => emit (AlertError (exnMessage error))).

(** The branch of [run] taken for [init]. *)
Definition initBranch (O : Oracle) : M unit :=
  w0 <- getWorld ;;
  let existingQbCliConfigs := qbcliJson w0 in
  let repositoryId := env w0 !! "REPOSITORY_ID" in
  defaultEnv "CUSTOM_PREFIX" "D" ;;;
  defaultEnv "CUSTOM_PREFIX_PROD" "P" ;;;
  defaultEnv "CUSTOM_PREFIX_FEATURE" "F" ;;;
  d <- Template.qbcliTemplate ;;
  let d := match existingQbCliConfigs with
           | Some prior => keepPrior prior d
           | None => d
           end in
  w1 <- getWorld ;;
  saveFeaturePrefix repositoryId (env w1 !! "CUSTOM_PREFIX_FEATURE") ;;;
  saved <- tryCatch (Files.saveJSONToFile O d ;;; ret true)
                    (fun error =>
                       emit (AlertError (exnMessage error)) ;;; ret false) ;;
  if (saved : bool) then emit (AlertSuccess MSG_INIT_DONE) else ret tt.

(** The branch of [run] taken for a deployment of type
    [deploymentType]. *)
Definition deployBranch (O : Oracle) (deploymentType : DeploymentType)
  : M unit :=
  w0 <- getWorld ;;
  match qbcliJson w0 with
  | None => emit (AlertError MSG_NOT_AT_ROOT)
  | Some existingQbCliConfigs =>
      match filesConf existingQbCliConfigs with
      | None =>
          throw (TypeError "Cannot read properties of undefined (reading 'length')")
      | Some filesConf =>
          if Nat.ltb (length filesConf) 1 then emit (AlertError MSG_NO_FILES_LISTED)
          else
            configs <- getConfiguration (repositoryId existingQbCliConfigs) ;;
            match configs with
            | None => emit (AlertError MSG_NOT_INITIALIZED)
            | Some configs =>
                confirmed <-
                  match deploymentType with
                  | Prod | Dev =>
                      emit (Confirm deploymentType) ;;;
                      ret (String.eqb (confirmAnswer O deploymentType) "yes")
                  | Feat => ret true
                  end ;;
                if (confirmed : bool) then
                  prefix <- liftE (Helpers.prefixGenerator
                              {| Helpers.customPrefix :=
                                   devPrefix existingQbCliConfigs;
                                 Helpers.customPrefixProduction :=
                                   prodPrefix existingQbCliConfigs;
                                 Helpers.pc_customPrefixFeature :=
                                   customPrefixFeature configs |}
                              deploymentType
                              (repositoryId existingQbCliConfigs)) ;;
                  tryCatch
                    (arrayOfFileContents <- getAllFileContents filesConf prefix ;;
                     if Nat.ltb (length arrayOfFileContents) 1
                     then emit (AlertError MSG_NOTHING_LOADED)
                     else
                       let formattedFiles :=
                         fst (formatFiles prefix arrayOfFileContents) in
                       forEach formattedFiles (fun file =>
                         handleAPICalls O deploymentType file
                                        existingQbCliConfigs))
                    (fun err => emit (AlertError MSG_LOADING_THREW))
                else ret tt
            end
      end
  end.

Definition dquote : string := String (ascii_of_nat 34) EmptyString.

Definition MSG_EDIT_IN_MANIFEST : string :=
  "After running " ++ dquote ++ "deployqb init" ++ dquote
  ++ ", you can update your prefixes by opening the qbcli.json file in the root of your project and manually updating the "
  ++ dquote ++ "customPrefix" ++ dquote ++ " and "
  ++ dquote ++ "customPrefixProduction" ++ dquote ++ " properties.".

Definition MSG_FEATURE_PREFIX_UPDATED : string :=
  "Feature prefix has been updated.".

(** [editPrefix]; [answer] is the [customPrefixFeature] property of what
    the prompt of [modifyPrefixInput] returns. *)
Definition editPrefix (answer : option string) (args : list Command)
  : M unit :=
  if includes args EDIT_DEV_PREFIX_CMD || includes args EDIT_PROD_PREFIX_CMD
  then emit (AlertWarning MSG_EDIT_IN_MANIFEST)
  else if includes args EDIT_FEAT_PREFIX_CMD then
    w <- getWorld ;;
    match qbcliJson w with
    | Some existingQbCliConfigs =>
        let repoId := repositoryId existingQbCliConfigs in
        configs <- getConfiguration repoId ;;
        match configs with
        | Some configs =>
            modifyWorld (setConfig repoId (mkDevConfig answer)) ;;;
            emit (AlertSuccess MSG_FEATURE_PREFIX_UPDATED)
        | None => emit (AlertError MSG_NOT_INITIALIZED)
        end
    | None => emit (AlertError MSG_NOT_AT_ROOT)
    end
  else ret tt.

Section Run.

(** The branches for launching, help, prefix editing and link
    listing are outside this development. *)
Variable otherCommands : list Command -> M unit.

(** [args] stands for [args._], the words that [minimist] returns as
    positional for the command line (line 47); [minimist] is a library
    and how it sorts the command line into options and words is not
    embedded.  The test of the second branch, one of the three deployment
    words among the arguments, holds exactly when
    [getDeploymentType] finds a type. *)
Definition run (O : Oracle) (args : list Command) : M unit :=
  if includes args DEPLOYQB_INIT_CMD then initBranch O
  else if includes args DEPLOY_DEV_CMD
          || includes args DEPLOY_PROD_CMD
          || includes args DEPLOY_FEAT_CMD
  then match getDeploymentType args with
       | Some deploymentType => deployBranch O deploymentType
       | None => ret tt
       end
  else otherCommands args.

End Run.

End IndexJs.

(** ** [src/unnamed/part_000] *)

Module Part000.

Definition dquote : string := String (ascii_of_nat 34) EmptyString.

Definition MSG_KEYTAR : string :=
  "Error setting token. If you are on Linux, you may need to install "
  ++ dquote ++ "libsecret" ++ dquote ++ ".".

Definition setSecureToken (O : Oracle) (key : string) (token : option string)
  : M unit :=
  tryCatch
    (match keytarFailure O with
     | Some m => throw (KeytarError m)
     | None => modifyWorld (setSecret key token)
     end)
    (fun error =>
       emit (AlertError MSG_KEYTAR) ;;;
       emit (AlertError (exnMessage error))).

(** The Configstore is kept as a flat map from identifiers to records.
    That is what the library does for an identifier that is a string
    without a dot, in a store whose keys are such strings; the library
    takes a dot for a path separator and an undefined key for the whole
    store, so the properties of the store are stated for [plainId]
    identifiers. *)
Definition saveFeaturePrefix (repositoryId customPrefixFeature : option string)
  : M unit :=
  modifyWorld (setConfig repositoryId (mkDevConfig customPrefixFeature)).

Definition getDeploymentType (args : list Command) : option DeploymentType :=
  if includes args DEPLOY_DEV_CMD then Some Dev
  else if includes args DEPLOY_PROD_CMD then Some Prod
  else if includes args DEPLOY_FEAT_CMD then Some Feat
  else None.

(** As for [saveFeaturePrefix]: the record of the flat map, which is
    what the library returns for a [plainId] identifier in a
    [plainStore]. *)
Definition getConfiguration (repositoryId : option string)
  : M (option DevConfig) :=
  w <- getWorld ;; ret (configstore w !! repositoryId).

(** [if (!input.p) { input.p = v; }] *)
Definition orDefault (x : option string) (v : string) : option string :=
  if truthy x then x else Some v.

(** The branch of [run] taken for [init]. *)
Definition initBranch (O : Oracle) : M unit :=
  w0 <- getWorld ;;
  let existingQbCliConfigs := qbcliJson w0 in
  let input := promptInput O existingQbCliConfigs in
  let repositoryId := in_repositoryId input in
  setSecureToken O (str repositoryId ++ "ut") (in_usertoken input) ;;;
  setSecureToken O (str repositoryId ++ "at") (in_apptoken input) ;;;
  (if bool_decide (in_devAndProdQuickBaseApplications input = Some "yes")
   then
     setSecureToken O (str repositoryId ++ "utd") (in_devUsertoken input) ;;;
     setSecureToken O (str repositoryId ++ "atd") (in_devApptoken input)
   else ret tt) ;;;
  let customPrefixFeature := orDefault (in_customPrefixFeature input) "F" in
  d <- Template.qbcliTemplate ;;
  let d := match existingQbCliConfigs with
           | Some prior => keepPrior prior d
           | None => d
           end in
  saveFeaturePrefix repositoryId customPrefixFeature ;;;
  saved <- tryCatch (Files.saveJSONToFile O d ;;; ret true)
                    (fun error =>
                       emit (AlertError (exnMessage error)) ;;; ret false) ;;
  if (saved : bool) then emit (AlertSuccess MSG_INIT_DONE) else ret tt.

(** The branch of [run] taken for a deployment of type
    [deploymentType].  [part_000] calls [getAllFileContents] and
    [handleAPICalls] but declares neither, and the constants of that
    name in [src/index.js] belong to that module: evaluating either name
    is a ReferenceError, raised here inside the [try]. *)
Definition deployBranch (O : Oracle) (deploymentType : DeploymentType)
  : M unit :=
  w0 <- getWorld ;;
  match qbcliJson w0 with
  | None => emit (AlertError MSG_NOT_AT_ROOT)
  | Some existingQbCliConfigs =>
      match filesConf existingQbCliConfigs with
      | None =>
          throw (TypeError "Cannot read properties of undefined (reading 'length')")
      | Some filesConf =>
          if Nat.ltb (length filesConf) 1
          then emit (AlertError MSG_NO_FILES_LISTED)
          else
            configs <- getConfiguration (repositoryId existingQbCliConfigs) ;;
            match configs with
            | None => emit (AlertError MSG_NOT_INITIALIZED)
            | Some configs =>
                confirmed <-
                  match deploymentType with
                  | Prod | Dev =>
                      emit (Confirm deploymentType) ;;;
                      ret (String.eqb (confirmAnswer O deploymentType) "yes")
                  | Feat => ret true
                  end ;;
                if (confirmed : bool) then
                  prefix <- liftE (Helpers.prefixGenerator
                              {| Helpers.customPrefix :=
                                   devPrefix existingQbCliConfigs;
                                 Helpers.customPrefixProduction :=
                                   prodPrefix existingQbCliConfigs;
                                 Helpers.pc_customPrefixFeature :=
                                   customPrefixFeature configs |}
                              deploymentType
                              (repositoryId existingQbCliConfigs)) ;;
                  tryCatch
                    (arrayOfFileContents <-
                       unbound (A := list Loaded) "getAllFileContents" ;;
                     if Nat.ltb (length arrayOfFileContents) 1
                     then emit (AlertError MSG_NOTHING_LOADED)
                     else
                       let formattedFiles :=
                         fst (formatFiles prefix arrayOfFileContents) in
                       unbound "handleAPICalls")
                    (fun err => emit (AlertError MSG_LOADING_THREW))
                else ret tt
            end
      end
  end.

Section Deploy.

(** The branches for launching, help, prefix editing and link listing
    are outside this development. *)
Variable otherCommands : list Command -> M unit.

(** [args] stands for [args._], as in [src/index.js]. *)
Definition run (O : Oracle) (args : list Command) : M unit :=
  if includes args DEPLOYQB_INIT_CMD then initBranch O
  else if includes args DEPLOY_DEV_CMD
          || includes args DEPLOY_PROD_CMD
          || includes args DEPLOY_FEAT_CMD
  then match getDeploymentType args with
       | Some deploymentType => deployBranch O deploymentType
       | None => ret tt
       end
  else otherCommands args.

End Deploy.

End Part000.

(** ** The link of the launch command *)

Module Uri.

Definition inRange (lo hi : nat) (c : ascii) : bool :=
  Nat.leb lo (nat_of_ascii c) && Nat.leb (nat_of_ascii c) hi.

Definition memChar (c : ascii) (set : string) : bool :=
  existsb (Ascii.eqb c) (list_ascii_of_string set).

(** The characters that [encodeURI] leaves alone: letters, digits,
    the marks, the reserved characters and the number sign. *)
Definition unescaped (c : ascii) : bool :=
  inRange 65 90 c || inRange 97 122 c || inRange 48 57 c
  || memChar c "-_.!~*'()" || memChar c ";/?:@&=+$," || memChar c "#".

Definition hexDigit (n : nat) : ascii :=
  nth n (list_ascii_of_string "0123456789ABCDEF") "0"%char.

Definition percent (octet : nat) : string :=
  String "%"%char
    (String (hexDigit (octet / 16))
       (String (hexDigit (octet mod 16)) EmptyString)).

(** One code unit below 256: itself, or the octets of its UTF-8 form,
    each as a percent sign and two capital hexadecimal digits. *)
Definition encodeUnit (c : ascii) : string :=
  if unescaped c then String c EmptyString
  else
    let n := nat_of_ascii c in
    if Nat.ltb n 128 then percent n
    else percent (192 + n / 64) ++ percent (128 + n mod 64).

Fixpoint encodeURI (s : string) : string :=
  match s with
  | EmptyString => EmptyString
  | String c r => encodeUnit c ++ encodeURI r
  end.

End Uri.

Module Launch.

(** What [getLaunchParameters] returns. *)
Record LaunchParameters : Type := mkLaunchParameters {
  launchDbid : option string;
  pageId : option string;
  errorMessage : string
}.

(** [getLaunchParameters] (src/index.js 258-299).  After its three
    declarations the first thing it evaluates is [!qbCliJsonExists], and
    [qbCliJsonExists] is a constant of the body of [run]: the scope of
    this function does not hold it.  The read is a ReferenceError; the
    statements that follow it are never evaluated and are not
    embedded. *)
Definition getLaunchParameters (args : list Command)
    (existingQbCliConfigs : option Manifest) : M LaunchParameters :=
  unbound "qbCliJsonExists".

(** [urlQueryString ? `&${encodeURI(urlQueryString)}` : ''] *)
Definition encodedQueryString (urlQueryString : option string) : string :=
  if truthy urlQueryString
  then "&" ++ Uri.encodeURI (str urlQueryString)
  else "".

(** The template literal of line 197. *)
Definition launchUrl (realm launchDbid : option string) (pageId : string)
    (urlQueryString : option string) : string :=
  "https://" ++ str realm ++ ".quickbase.com/db/" ++ str launchDbid
  ++ "?a=dbpage&pageID=" ++ pageId ++ encodedQueryString urlQueryString.

(** The branch of [run] taken for one of the three launch commands
    (src/index.js 172-198). *)
Definition launchBranch (args : list Command) : M unit :=
  w <- getWorld ;;
  parameters <- getLaunchParameters args (qbcliJson w) ;;
  if truthy (pageId parameters) then
    match qbcliJson w with
    | None => throw (TypeError "Cannot destructure property of null")
    | Some existingQbCliConfigs =>
        configs <- IndexJs.getConfiguration
                     (repositoryId existingQbCliConfigs) ;;
        match configs with
        | None => emit (AlertError MSG_NOT_INITIALIZED)
        | Some _ =>
            emit (Open (launchUrl (realm existingQbCliConfigs)
                                  (launchDbid parameters)
                                  (str (pageId parameters))
                                  (urlQueryString existingQbCliConfigs)))
        end
    end
  else emit (AlertError (errorMessage parameters)).

End Launch.

(** ** What the pipeline is expected to do, stated without the monad *)

(** The entry of [arrayOfFileContents] that one manifest entry gives on
    the disk [d]: none when the file is not there. *)
Definition loadOne (d : gmap string string) (fileConf : FileConf)
  : option Loaded :=
  match d !! filename fileConf with
  | Some fileContents =>
      Some (filename fileConf, fileContents, isYes (isIndexFile fileConf))
  | None => None
  end.

Definition loaded (d : gmap string string) (filesConf : list FileConf)
  : list Loaded :=
  omap (loadOne d) filesConf.

Definition loadedName (x : Loaded) : string := fst (fst x).
Definition loadedContents (x : Loaded) : string := snd (fst x).
Definition loadedIsIndex (x : Loaded) : bool := snd x.

(** The page name and the page body of one loaded file. *)
Definition prepared (prefix : string) (x : Loaded) : string * string :=
  (prefix ++ loadedName x, loadedContents x).

Definition pairOf (f : string * string) : JsVal :=
  JArr [JStr (fst f); JStr (snd f)].

(** The request of one upsert, for a page name and a page body. *)
Definition requestFor (cfg : Manifest) (e : gmap string string)
    (f : string * string) : Request :=
  QbJs.buildRequest (dbid cfg) (realm cfg) (e !! "USERTOKEN") (e !! "APP_TOKEN")
                    (JStr (fst f)) (JStr (snd f)).

(** What [handleAPICalls] prints once the promise has settled. *)
Definition report (t : DeploymentType) (r : AxiosResult) : Event :=
  match r with
  | Resolved => AlertSuccess (MSG_DEPLOYED t)
  | Rejected m => AlertError m
  end.

(** The events of a batch: each request is followed by its report, and
    the remote service has seen [sent] before the first of them. *)
Fixpoint upsertTrace (O : Oracle) (t : DeploymentType) (cfg : Manifest)
    (e : gmap string string) (sent : list Request)
    (files : list (string * string)) : list Event :=
  match files with
  | [] => []
  | f :: rest =>
      let r := requestFor cfg e f in
      Post r :: report t (remote O sent r)
        :: upsertTrace O t cfg e (sent ++ [r]) rest
  end.

(** The value of [indexFileName] after the entries [arr], when it was
    [idx] before them. *)
Definition indexAfter (idx : option string) (arr : list Loaded)
  : option string :=
  fold_left (fun i x => if loadedIsIndex x then Some (loadedName x) else i)
            arr idx.

(** The confirmation prompt of a production or development deployment. *)
Definition confirmEvents (t : DeploymentType) : list Event :=
  match t with
  | Prod | Dev => [Confirm t]
  | Feat => []
  end.

Definition confirms (O : Oracle) (t : DeploymentType) : bool :=
  match t with
  | Prod | Dev => String.eqb (confirmAnswer O t) "yes"
  | Feat => true
  end.

(** The argument that the deploy branch hands to [prefixGenerator]. *)
Definition prefixConfigOf (cfg : Manifest) (configs : DevConfig)
  : Helpers.PrefixConfig :=
  {| Helpers.customPrefix := devPrefix cfg;
     Helpers.customPrefixProduction := prodPrefix cfg;
     Helpers.pc_customPrefixFeature := customPrefixFeature configs |}.

(** ** The concrete worlds used in the examples *)

Module Scenario.

Definition noInput : UserInput :=
  mkUserInput None None None None None None None None None.

(** Every request succeeds and the user confirms. *)
Definition accepting : Oracle :=
  mkOracle (fun _ => "yes") (fun _ _ => Resolved) None (fun _ => noInput) None.

(** Every request is refused by the remote service. *)
Definition refusing : Oracle :=
  mkOracle (fun _ => "yes") (fun _ _ => Rejected "Request failed with status code 401")
           None (fun _ => noInput) None.

Definition entry (name : string) (flag : JsFlag) : FileConf :=
  {| filename := name; path := Some "./"; dependencies := None;
     isIndexFile := flag |}.

Definition manifestOf (prod : option string) (files : list FileConf)
  : Manifest :=
  {| urlQueryString := Some "";
     repositoryId := Some "repo";
     prodPrefix := prod;
     devPrefix := Some "D";
     dbid := Some "abc123";
     devDbid := Some "";
     devAndProdQuickBaseApplications := Some "no";
     realm := Some "acme";
     filesConf := Some files |}.

Definition worldOf (m : Manifest) (files : list (string * string)) : World :=
  {| env := {[ "USERTOKEN" := "ut" ]};
     qbcliJson := Some m;
     disk := list_to_map files;
     configstore := {[ Some "repo" := mkDevConfig (Some "F") ]};
     keychain := ∅;
     trace := [] |}.

(** The scenario of the spec: one file [a.js] that holds [1]. *)
Definition oneFile : World :=
  worldOf (manifestOf (Some "P") [entry "a.js" (FlagStr "yes")])
          [("a.js", "1")].

(** Two files that both claim to be the index file. *)
Definition twoIndexFiles : World :=
  worldOf (manifestOf (Some "P")
             [entry "a.js" (FlagStr "yes"); entry "b.js" (FlagStr "yes")])
          [("a.js", "1"); ("b.js", "2")].

(** One listed file that is on the disk and holds nothing. *)
Definition blankFile : World :=
  worldOf (manifestOf (Some "P") [entry "x.html" FlagAbsent])
          [("x.html", "")].

(** One listed file that is not on the disk, beside one that is. *)
Definition oneMissing : World :=
  worldOf (manifestOf (Some "P")
             [entry "gone.js" FlagAbsent; entry "a.js" FlagAbsent])
          [("a.js", "1")].

(** No listed file is on the disk. *)
Definition allMissing : World :=
  worldOf (manifestOf (Some "P") [entry "gone.js" FlagAbsent]) [].

(** The production prefix is the empty string. *)
Definition emptyProdPrefix : World :=
  worldOf (manifestOf (Some "") [entry "a.js" FlagAbsent]) [("a.js", "1")].

(** A manifest edited by hand after an earlier [init]. *)
Definition initialized : World :=
  worldOf {| urlQueryString := Some "view=all";
             repositoryId := Some "repo";
             prodPrefix := Some "P";
             devPrefix := Some "D";
             dbid := Some "abc123";
             devDbid := Some "";
             devAndProdQuickBaseApplications := Some "no";
             realm := Some "acme";
             filesConf := Some [entry "a.js" (FlagStr "yes")] |}
          [("a.js", "1")].

End Scenario.

(** ** Statements of the spec that the code does not satisfy *)

(** Stop on the first failure: a request that the remote service
    refuses is the last request of the deployment. *)
Definition StopsOnFirstFailure : Prop :=
  forall (O : Oracle) (t : DeploymentType) (w w' : World) (r : Outcome unit),
    trace w = [] ->
    IndexJs.deployBranch O t w = (r, w') ->
    forall (i : nat) (req : Request) (m : string),
      requestsOf (trace w') !! i = Some req ->
      remote O (take i (requestsOf (trace w'))) req = Rejected m ->
      length (requestsOf (trace w')) = S i.

(** At most one loaded file is marked as the index file, and the name
    kept in [indexFileName] is that of the first claimant. *)
Definition FirstIndexClaimWins : Prop :=
  forall (w w' : World) (filesConf : list FileConf) (prefix : string)
         (arr : list Loaded),
    IndexJs.getAllFileContents filesConf prefix w = (Returned arr, w') ->
    length (List.filter loadedIsIndex arr) <= 1
    /\ snd (formatFiles prefix arr)
       = head (map loadedName (List.filter loadedIsIndex arr)).

(** Every request goes to [https://{realm}/db/{targetId}]. *)
Definition PostsToHttpsRealm : Prop :=
  forall (O : Oracle) (t : DeploymentType) (w w' : World) (r : Outcome unit)
         (cfg : Manifest) (realm' dbid' : string) (req : Request),
    trace w = [] ->
    qbcliJson w = Some cfg ->
    realm cfg = Some realm' ->
    dbid cfg = Some dbid' ->
    IndexJs.deployBranch O t w = (r, w') ->
    In req (requestsOf (trace w')) ->
    url req = "https://" ++ realm' ++ "/db/" ++ dbid'.

(** A listed file that is not on the disk makes the loader print a
    warning. *)
Definition WarnsOnMissingFile : Prop :=
  forall (w w' : World) (filesConf : list FileConf) (prefix : string)
         (r : Outcome (list Loaded)) (fileConf : FileConf),
    trace w = [] ->
    In fileConf filesConf ->
    disk w !! filename fileConf = None ->
    IndexJs.getAllFileContents filesConf prefix w = (r, w') ->
    exists msg, In (AlertWarning msg) (trace w').

(** The two pipelines send the same requests. *)
Definition SameRequests : Prop :=
  forall (O : Oracle) (t : DeploymentType) (w w1 w2 : World)
         (r1 r2 : Outcome unit),
    IndexJs.deployBranch O t w = (r1, w1) ->
    Part000.deployBranch O t w = (r2, w2) ->
    requestsOf (trace w1) = requestsOf (trace w2).

(** The loader never returns a file without contents. *)
Definition NeverLoadsBlankFile : Prop :=
  forall (w w' : World) (filesConf : list FileConf) (prefix : string)
         (arr : list Loaded) (x : Loaded),
    IndexJs.getAllFileContents filesConf prefix w = (Returned arr, w') ->
    In x arr ->
    loadedContents x <> "".

(** A character that does not occur in a string. *)
Definition lacks (c : ascii) (s : string) : Prop :=
  ~ In c (list_ascii_of_string s).

(** An identifier that the Configstore takes for one key: a string
    without a dot. *)
Definition plainId (k : option string) : Prop :=
  exists id, k = Some id /\ lacks "." id.

(** A Configstore all of whose keys are such identifiers. *)
Definition plainStore (store : gmap (option string) DevConfig) : Prop :=
  forall k, is_Some (store !! k) -> plainId k.

(** ** Further descriptions used by the properties of the other code *)

(** The listed files that are on the disk [d]. *)
Definition presentOn (d : gmap string string) (filesConf : list FileConf)
  : list FileConf :=
  List.filter (fun fileConf => bool_decide (is_Some (d !! filename fileConf)))
              filesConf.

(** An event that is a confirmation prompt. *)
Definition isConfirm (e : Event) : bool :=
  match e with
  | Confirm _ => true
  | _ => false
  end.

(** What [if (!process.env[k]) process.env[k] = v] leaves under [k]. *)
Definition defaulted (e : gmap string string) (k v : string) : string :=
  match e !! k with
  | Some x => if truthy (Some x) then x else v
  | None => v
  end.

(** The manifest that [init] hands to [saveJSONToFile]: the template,
    with the two fields of the previous manifest when there is one. *)
Definition manifestOfInit (prior : option Manifest) (template : Manifest)
  : Manifest :=
  match prior with
  | Some m => keepPrior m template
  | None => template
  end.

(** The object that [qbcliTemplate] returns when [process.env] is [e]. *)
Definition templateOf (e : gmap string string) : Manifest :=
  {| urlQueryString := Some "";
     repositoryId := e !! "REPOSITORY_ID";
     prodPrefix := e !! "CUSTOM_PREFIX_PRODUCTION";
     devPrefix := e !! "CUSTOM_PREFIX";
     dbid := e !! "DBID";
     devDbid :=
       if bool_decide (e !! "DEV_AND_PROD_QUICKBASE_APPLICATIONS" = Some "yes")
       then e !! "DEV_DBID" else Some "";
     devAndProdQuickBaseApplications :=
       e !! "DEV_AND_PROD_QUICKBASE_APPLICATIONS";
     realm := e !! "REALM";
     filesConf := Some Template.exampleFilesConf |}.

(** [process.env] after the three defaults of the [init] branch of
    [src/index.js]. *)
Definition envOfInit (e : gmap string string) : gmap string string :=
  <["CUSTOM_PREFIX_FEATURE" := defaulted e "CUSTOM_PREFIX_FEATURE" "F"]>
    (<["CUSTOM_PREFIX_PROD" := defaulted e "CUSTOM_PREFIX_PROD" "P"]>
       (<["CUSTOM_PREFIX" := defaulted e "CUSTOM_PREFIX" "D"]> e)).

(** The keys of the keychain for the repository [r]. *)
Definition tokenKey (r : option string) (suffix : string) : string :=
  str r ++ suffix.

(** Some worlds and an oracle for the examples of these properties. *)
Module Scenario2.

(** The keychain refuses every write. *)
Definition keytarDown : Oracle :=
  mkOracle (fun _ => "yes") (fun _ _ => Resolved) None
           (fun _ => Scenario.noInput) (Some "libsecret missing").

(** The manifest cannot be written. *)
Definition readOnlyDisk : Oracle :=
  mkOracle (fun _ => "yes") (fun _ _ => Resolved) (Some "EACCES")
           (fun _ => Scenario.noInput) None.

(** The user answers no at the confirmation prompt. *)
Definition declining : Oracle :=
  mkOracle (fun _ => "no") (fun _ _ => Resolved) None
           (fun _ => Scenario.noInput) None.

(** The prompts of [init] answered for a project with two applications. *)
Definition prompted : Oracle :=
  mkOracle (fun _ => "yes") (fun _ _ => Resolved) None
           (fun _ => {| in_repositoryId := Some "repo";
                        in_usertoken := Some "u1";
                        in_apptoken := Some "a1";
                        in_devAndProdQuickBaseApplications := Some "yes";
                        in_devUsertoken := Some "u2";
                        in_devApptoken := Some "a2";
                        in_customPrefix := None;
                        in_customPrefixProduction := None;
                        in_customPrefixFeature := Some "X" |})
           None.

(** A directory without manifest, with a repository named in the
    environment. *)
Definition fresh : World :=
  {| env := {[ "REPOSITORY_ID" := "repo" ]};
     qbcliJson := None;
     disk := ∅;
     configstore := ∅;
     keychain := ∅;
     trace := [] |}.

(** A manifest whose repository has no per-developer record. *)
Definition neverInitialized : World :=
  {| env := ∅;
     qbcliJson := Some (Scenario.manifestOf (Some "P")
                          [Scenario.entry "a.js" FlagAbsent]);
     disk := {[ "a.js" := "1" ]};
     configstore := ∅;
     keychain := ∅;
     trace := [] |}.

(** A project with a manifest, and its repository named in the
    environment. *)
Definition again : World :=
  {| env := {[ "REPOSITORY_ID" := "repo" ]};
     qbcliJson := Some (Scenario.manifestOf (Some "P")
                          [Scenario.entry "a.js" FlagAbsent]);
     disk := {[ "a.js" := "1" ]};
     configstore := ∅;
     keychain := ∅;
     trace := [] |}.

End Scenario2.

(** * Properties *)

Local Close Scope string_scope.

(** ** The monad and the trace *)

(** Unfolds the operations of the monad. *)
Ltac run_js :=
  cbv [bind ret throw tryCatch getWorld modifyWorld liftE emit].

Section TraceFacts.

Implicit Types (w : World) (es : list Event).

Lemma addTrace_nil w : addTrace w [] = w.
Proof. destruct w; unfold addTrace; simpl. by rewrite app_nil_r. Qed.

Lemma addTrace_app w es1 es2 :
  addTrace (addTrace w es1) es2 = addTrace w (es1 ++ es2).
Proof. unfold addTrace; simpl. by rewrite <- app_assoc. Qed.

Lemma emit_run e w : emit e w = (Returned tt, addTrace w [e]).
Proof. reflexivity. Qed.

Lemma requestsOf_app (t1 t2 : list Event) :
  requestsOf (t1 ++ t2) = requestsOf t1 ++ requestsOf t2.
Proof. apply omap_app. Qed.

Lemma alertsOf_app (t1 t2 : list Event) :
  alertsOf (t1 ++ t2) = alertsOf t1 ++ alertsOf t2.
Proof. apply omap_app. Qed.

Lemma readsOf_app (t1 t2 : list Event) :
  readsOf (t1 ++ t2) = readsOf t1 ++ readsOf t2.
Proof. apply omap_app. Qed.

Lemma requestsOf_reads (names : list string) :
  requestsOf (map ReadFile names) = [].
Proof. induction names as [|n names IH]; [done | exact IH]. Qed.

Lemma alertsOf_reads (names : list string) :
  alertsOf (map ReadFile names) = [].
Proof. induction names as [|n names IH]; [done | exact IH]. Qed.

Lemma requestsOf_confirm t : requestsOf (confirmEvents t) = [].
Proof. by destruct t. Qed.

Lemma readsOf_confirm t : readsOf (confirmEvents t) = [].
Proof. by destruct t. Qed.

End TraceFacts.

(** ** The dispatch of [run] *)

Section Dispatch.

Variable otherCommands : list Command -> M unit.
Variables (O : Oracle) (args : list Command).

Lemma getDeploymentType_Some :
  includes args DEPLOY_DEV_CMD || includes args DEPLOY_PROD_CMD
    || includes args DEPLOY_FEAT_CMD = true
  <-> exists t, IndexJs.getDeploymentType args = Some t.
Proof.
  unfold IndexJs.getDeploymentType.
  destruct (includes args DEPLOY_DEV_CMD), (includes args DEPLOY_PROD_CMD),
    (includes args DEPLOY_FEAT_CMD); cbn;
    (split; [intros H; try discriminate; eauto
            | intros [t' Ht']; try discriminate; reflexivity]).
Qed.

Lemma run_init :
  includes args DEPLOYQB_INIT_CMD = true ->
  IndexJs.run otherCommands O args = IndexJs.initBranch O.
Proof. intros H. unfold IndexJs.run. by rewrite H. Qed.

Lemma run_deploy (t : DeploymentType) :
  includes args DEPLOYQB_INIT_CMD = false ->
  IndexJs.getDeploymentType args = Some t ->
  IndexJs.run otherCommands O args = IndexJs.deployBranch O t.
Proof.
  intros Hinit Ht. unfold IndexJs.run. rewrite Hinit.
  rewrite (proj2 getDeploymentType_Some (ex_intro _ t Ht)).
  by rewrite Ht.
Qed.

End Dispatch.

(** ** The loader *)

Section Loader.

Lemma loadFrom_run (filesConf : list FileConf) :
  forall (acc : list Loaded) (w : World),
    IndexJs.loadFrom filesConf acc w
    = (Returned (acc ++ loaded (disk w) filesConf),
       addTrace w (map ReadFile (map loadedName (loaded (disk w) filesConf)))).
Proof.
  induction filesConf as [|fileConf rest IH]; intros acc w.
  - cbn. by rewrite app_nil_r, addTrace_nil.
  - cbn [IndexJs.loadFrom].
    unfold bind at 1. unfold Files.fileFolderExists, bind, getWorld, ret.
    unfold loaded. cbn [omap list_omap]. fold (loaded (disk w) rest).
    unfold loadOne.
    destruct (disk w !! filename fileConf) as [contents|] eqn:Hdisk.
    + rewrite bool_decide_eq_true_2 by eauto.
      unfold Files.getFileContents, bind, getWorld.
      rewrite emit_run, Hdisk. unfold ret.
      rewrite IH. cbn [disk addTrace].
      rewrite addTrace_app, <- app_assoc. reflexivity.
    + rewrite bool_decide_eq_false_2 by (intros [? ?]; discriminate).
      rewrite IH. reflexivity.
Qed.

Lemma getAllFileContents_run (filesConf : list FileConf) (prefix : string)
    (w : World) :
  IndexJs.getAllFileContents filesConf prefix w
  = (Returned (loaded (disk w) filesConf),
     addTrace w (map ReadFile (map loadedName (loaded (disk w) filesConf)))).
Proof. unfold IndexJs.getAllFileContents. by rewrite loadFrom_run. Qed.

Lemma loaded_In (d : gmap string string) (filesConf : list FileConf)
    (x : Loaded) :
  In x (loaded d filesConf) <->
  exists fileConf, In fileConf filesConf /\ loadOne d fileConf = Some x.
Proof.
  unfold loaded. rewrite <- list_elem_of_In, list_elem_of_omap.
  split; intros (fc & H1 & H2); exists fc; split; auto;
    by apply list_elem_of_In.
Qed.

Lemma loaded_all_missing (d : gmap string string) (filesConf : list FileConf) :
  (forall fileConf, In fileConf filesConf -> d !! filename fileConf = None) ->
  loaded d filesConf = [].
Proof.
  intros Hmiss. destruct (loaded d filesConf) as [|x l] eqn:E; [done|].
  assert (In x (loaded d filesConf)) as Hin by (rewrite E; left; done).
  apply loaded_In in Hin as (fc & Hfc & Hone).
  unfold loadOne in Hone. by rewrite (Hmiss fc Hfc) in Hone.
Qed.

End Loader.

(** ** The upsert loop *)

Section Upserts.

Variables (O : Oracle) (t : DeploymentType) (cfg : Manifest).

Lemma requestsOf_report (r : AxiosResult) : requestsOf [report t r] = [].
Proof. by destruct r. Qed.

Lemma handleAPICalls_pair (f : string * string) (w : World) :
  IndexJs.handleAPICalls O t (pairOf f) cfg w
  = (Returned tt,
     addTrace w [Post (requestFor cfg (env w) f);
                 report t (remote O (requestsOf (trace w))
                                  (requestFor cfg (env w) f))]).
Proof.
  unfold IndexJs.handleAPICalls, QbJs.addUpdateDbPage, QbJs.axios, pairOf.
  cbn [getIndex lookup list_lookup default id].
  run_js. cbn [trace env addTrace].
  fold (requestFor cfg (env w) f).
  destruct (remote O (requestsOf (trace w)) (requestFor cfg (env w) f));
    cbn [report]; unfold addTrace; cbn [trace env]; rewrite <- app_assoc;
    reflexivity.
Qed.

Lemma upsert_loop (files : list (string * string)) :
  forall w : World,
    forEach (map pairOf files)
            (fun file => IndexJs.handleAPICalls O t file cfg) w
    = (Returned tt,
       addTrace w (upsertTrace O t cfg (env w) (requestsOf (trace w)) files)).
Proof.
  induction files as [|f rest IH]; intros w.
  - cbn. by rewrite addTrace_nil.
  - cbn [map forEach]. unfold bind. rewrite handleAPICalls_pair, IH.
    rewrite addTrace_app. cbn [env trace addTrace upsertTrace].
    rewrite requestsOf_app.
    change [Post ?r; ?e] with ([Post r] ++ [e]).
    rewrite requestsOf_app, requestsOf_report, app_nil_r. reflexivity.
Qed.

Lemma requestsOf_upsertTrace (e : gmap string string)
    (files : list (string * string)) :
  forall sent : list Request,
    requestsOf (upsertTrace O t cfg e sent files)
    = map (requestFor cfg e) files.
Proof.
  induction files as [|f rest IH]; intros sent; [done|].
  cbn [upsertTrace map].
  change (Post ?r :: ?e :: ?l) with ([Post r] ++ [e] ++ l).
  rewrite !requestsOf_app, requestsOf_report, IH. reflexivity.
Qed.

Lemma readsOf_upsertTrace (e : gmap string string)
    (files : list (string * string)) :
  forall sent : list Request, readsOf (upsertTrace O t cfg e sent files) = [].
Proof.
  induction files as [|f rest IH]; intros sent; [done|].
  cbn [upsertTrace]. destruct (remote O sent (requestFor cfg e f));
    cbn; apply IH.
Qed.

End Upserts.

(** ** The formatting of the loaded files *)

Section Formatting.

Variable prefix : string.

Lemma formatFiles_from (arr : list Loaded) :
  forall (acc : list JsVal) (idx : option string),
    fold_left (formatStep prefix) arr (acc, idx)
    = (acc ++ map (fun x => pairOf (prepared prefix x)) arr,
       indexAfter idx arr).
Proof.
  induction arr as [|[[n c] b] rest IH]; intros acc idx.
  - cbn. by rewrite app_nil_r.
  - cbn [fold_left formatStep fst snd]. rewrite IH.
    cbn [map]. rewrite <- app_assoc. reflexivity.
Qed.

Lemma formatFiles_fst (arr : list Loaded) :
  fst (formatFiles prefix arr)
  = map pairOf (map (prepared prefix) arr).
Proof.
  unfold formatFiles. rewrite formatFiles_from, map_map. reflexivity.
Qed.

Lemma formatFiles_snd (arr : list Loaded) :
  snd (formatFiles prefix arr) = indexAfter None arr.
Proof. unfold formatFiles. by rewrite formatFiles_from. Qed.

End Formatting.

(** ** The deploy branch of [src/index.js], check by check *)

Section DeployBranch.

Variables (O : Oracle) (t : DeploymentType) (w : World).
Variables (cfg : Manifest) (fcs : list FileConf).
Hypothesis Hcfg : qbcliJson w = Some cfg.
Hypothesis Hfiles : filesConf cfg = Some fcs.

Lemma deploy_no_files :
  fcs = [] ->
  IndexJs.deployBranch O t w
  = (Returned tt, addTrace w [AlertError MSG_NO_FILES_LISTED]).
Proof.
  intros ->. unfold IndexJs.deployBranch. run_js.
  rewrite Hcfg, Hfiles. reflexivity.
Qed.

Lemma deploy_not_initialized :
  fcs <> [] ->
  configstore w !! repositoryId cfg = None ->
  IndexJs.deployBranch O t w
  = (Returned tt, addTrace w [AlertError MSG_NOT_INITIALIZED]).
Proof.
  intros Hne Hstore. unfold IndexJs.deployBranch, IndexJs.getConfiguration.
  run_js. rewrite Hcfg, Hfiles. destruct fcs as [|fc rest]; [done|].
  cbn [length Nat.ltb Nat.leb]. rewrite Hstore. reflexivity.
Qed.

Variable configs : DevConfig.
Hypothesis Hne : fcs <> [].
Hypothesis Hstore : configstore w !! repositoryId cfg = Some configs.

Lemma deploy_declined :
  confirms O t = false ->
  IndexJs.deployBranch O t w = (Returned tt, addTrace w (confirmEvents t)).
Proof.
  intros Hno. unfold IndexJs.deployBranch, IndexJs.getConfiguration.
  run_js. rewrite Hcfg, Hfiles. destruct fcs as [|fc rest]; [done|].
  cbn [length Nat.ltb Nat.leb]. rewrite Hstore.
  destruct t; cbn [confirms] in Hno; try discriminate;
    rewrite Hno; reflexivity.
Qed.

Hypothesis Hyes : confirms O t = true.

Lemma deploy_prefix_fails (e : Exn) :
  Helpers.prefixGenerator (prefixConfigOf cfg configs) t (repositoryId cfg)
    = inl e ->
  IndexJs.deployBranch O t w = (Thrown e, addTrace w (confirmEvents t)).
Proof.
  intros Hpre. unfold IndexJs.deployBranch, IndexJs.getConfiguration.
  run_js. rewrite Hcfg, Hfiles. destruct fcs as [|fc rest]; [done|].
  cbn [length Nat.ltb Nat.leb]. rewrite Hstore.
  unfold prefixConfigOf in Hpre.
  destruct t; cbn [confirms] in Hyes; try rewrite Hyes; rewrite Hpre;
    try reflexivity; by rewrite addTrace_nil.
Qed.

Variable prefix : string.
Hypothesis Hprefix :
  Helpers.prefixGenerator (prefixConfigOf cfg configs) t (repositoryId cfg)
    = inr prefix.

(** Past the checks, the branch loads the files and then runs the loop
    (or prints that nothing was loaded). *)
Lemma deploy_past_checks :
  IndexJs.deployBranch O t w
  = tryCatch
      (arrayOfFileContents <- IndexJs.getAllFileContents fcs prefix ;;
       if Nat.ltb (length arrayOfFileContents) 1
       then emit (AlertError MSG_NOTHING_LOADED)
       else
         forEach (fst (formatFiles prefix arrayOfFileContents))
                 (fun file => IndexJs.handleAPICalls O t file cfg))%js
      (fun err => emit (AlertError MSG_LOADING_THREW))
      (addTrace w (confirmEvents t)).
Proof.
  unfold IndexJs.deployBranch at 1, IndexJs.getConfiguration.
  unfold bind at 1, getWorld at 1. rewrite Hcfg, Hfiles.
  destruct fcs as [|fc rest]; [done|].
  cbn [length Nat.ltb Nat.leb].
  unfold bind at 1, bind at 1, getWorld at 1, ret at 1. rewrite Hstore.
  unfold prefixConfigOf in Hprefix.
  destruct t; cbn [confirms] in Hyes.
  - unfold bind at 1, bind at 1. rewrite emit_run. unfold ret at 1.
    rewrite Hyes. unfold bind at 1. rewrite Hprefix. reflexivity.
  - unfold bind at 1, bind at 1. rewrite emit_run. unfold ret at 1.
    rewrite Hyes. unfold bind at 1. rewrite Hprefix. reflexivity.
  - unfold bind at 1, ret at 1. unfold bind at 1. rewrite Hprefix.
    cbn [liftE ret confirmEvents]. by rewrite addTrace_nil.
Qed.

Lemma deploy_nothing_loaded :
  loaded (disk w) fcs = [] ->
  IndexJs.deployBranch O t w
  = (Returned tt,
     addTrace w (confirmEvents t ++ [AlertError MSG_NOTHING_LOADED])).
Proof.
  intros Hnone. rewrite deploy_past_checks.
  unfold tryCatch, bind. rewrite getAllFileContents_run.
  cbn [disk addTrace]. rewrite Hnone. cbn [length Nat.ltb Nat.leb map].
  rewrite addTrace_nil, emit_run, addTrace_app. reflexivity.
Qed.

Lemma deploy_batch :
  loaded (disk w) fcs <> [] ->
  IndexJs.deployBranch O t w
  = (Returned tt,
     addTrace w
       (confirmEvents t
        ++ map ReadFile (map loadedName (loaded (disk w) fcs))
        ++ upsertTrace O t cfg (env w) (requestsOf (trace w))
             (map (prepared prefix) (loaded (disk w) fcs)))).
Proof.
  intros Hsome. rewrite deploy_past_checks.
  unfold tryCatch, bind. rewrite getAllFileContents_run.
  cbn [disk addTrace].
  destruct (loaded (disk w) fcs) as [|x arr] eqn:Hload; [done|].
  cbn [length Nat.ltb Nat.leb]. rewrite formatFiles_fst, upsert_loop.
  rewrite !addTrace_app. cbn [env trace addTrace].
  rewrite !requestsOf_app, requestsOf_confirm, requestsOf_reads.
  cbn [app]. rewrite app_nil_r. reflexivity.
Qed.

End DeployBranch.

(** ** The failure policy of a batch *)

Lemma upsertTrace_report (O : Oracle) (t : DeploymentType) (cfg : Manifest)
    (e : gmap string string) (files : list (string * string)) :
  forall (sent : list Request) (i : nat) (f : string * string),
    files !! i = Some f ->
    In (report t (remote O (sent ++ map (requestFor cfg e) (take i files))
                         (requestFor cfg e f)))
       (upsertTrace O t cfg e sent files).
Proof.
  induction files as [|g rest IH]; intros sent i f Hi; [done|].
  destruct i as [|i]; cbn in Hi.
  - injection Hi as ->. cbn. rewrite app_nil_r. right; left; reflexivity.
  - cbn [upsertTrace take map]. right; right.
    specialize (IH (sent ++ [requestFor cfg e g]) i f Hi).
    rewrite <- app_assoc in IH. exact IH.
Qed.

(** C1, as the code has it.  Once the checks of the deploy branch are
    passed, the requests go out one at a time, each followed by its
    report, in the order of the batch; every file of the batch is
    posted whether or not an earlier request was refused; and the
    message of a refused request is printed as the remote service gave
    it. *)
Theorem C1_batch_continues_after_failure
    (O : Oracle) (t : DeploymentType) (w : World) (cfg : Manifest)
    (fcs : list FileConf) (configs : DevConfig) (prefix : string) :
  qbcliJson w = Some cfg ->
  filesConf cfg = Some fcs ->
  configstore w !! repositoryId cfg = Some configs ->
  confirms O t = true ->
  Helpers.prefixGenerator (prefixConfigOf cfg configs) t (repositoryId cfg)
    = inr prefix ->
  loaded (disk w) fcs <> [] ->
  let batch := map (prepared prefix) (loaded (disk w) fcs) in
  let reqs := map (requestFor cfg (env w)) batch in
  exists w',
    IndexJs.deployBranch O t w = (Returned tt, w')
    /\ trace w'
       = trace w ++ confirmEvents t
         ++ map ReadFile (map loadedName (loaded (disk w) fcs))
         ++ upsertTrace O t cfg (env w) (requestsOf (trace w)) batch
    /\ requestsOf (trace w') = requestsOf (trace w) ++ reqs
    /\ forall (i : nat) (f : string * string) (m : string),
         batch !! i = Some f ->
         remote O (requestsOf (trace w) ++ take i reqs) (requestFor cfg (env w) f)
           = Rejected m ->
         In (AlertError m) (trace w').
Proof.
  intros Hcfg Hfiles Hstore Hyes Hprefix Hsome batch reqs.
  assert (fcs <> []) as Hne by (intros ->; by apply Hsome).
  eexists. split.
  { exact (deploy_batch O t w cfg fcs Hcfg Hfiles configs Hne Hstore Hyes
                        prefix Hprefix Hsome). }
  cbn [trace addTrace]. split; [reflexivity|]. split.
  - rewrite !requestsOf_app, requestsOf_confirm, requestsOf_reads.
    rewrite requestsOf_upsertTrace. reflexivity.
  - intros i f m Hi Hrej.
    apply in_or_app; right. apply in_or_app; right. apply in_or_app; right.
    pose proof (upsertTrace_report O t cfg (env w) batch
                  (requestsOf (trace w)) i f Hi) as Hin.
    unfold reqs in Hrej. rewrite List.firstn_map in Hrej.
    rewrite Hrej in Hin. exact Hin.
Qed.

(** Two files and a remote service that refuses everything: both are
    posted and the refusal is printed. *)
Lemma C1_batch_continues_after_failure_witness :
  exists w',
    IndexJs.deployBranch Scenario.refusing Feat Scenario.twoIndexFiles
      = (Returned tt, w')
    /\ length (requestsOf (trace w')) = 2
    /\ In (AlertError "Request failed with status code 401") (trace w').
Proof.
  destruct (C1_batch_continues_after_failure
              Scenario.refusing Feat Scenario.twoIndexFiles
              (Scenario.manifestOf (Some "P")
                 [Scenario.entry "a.js" (FlagStr "yes");
                  Scenario.entry "b.js" (FlagStr "yes")])
              [Scenario.entry "a.js" (FlagStr "yes");
               Scenario.entry "b.js" (FlagStr "yes")]
              (mkDevConfig (Some "F")) "F")
    as (w' & Hrun & _ & Hreqs & Hmsg);
    [reflexivity | reflexivity | by vm_compute | reflexivity | reflexivity
    | by vm_compute | ].
  exists w'. split; [exact Hrun|]. split.
  - rewrite Hreqs. reflexivity.
  - apply (Hmsg 0 ("Fa.js", "1")); reflexivity.
Defined.

(** C1, as the spec words it, fails: with two files and a remote service
    that refuses everything, the second request is still sent. *)
Lemma C1_stop_on_first_failure_refuted : ~ StopsOnFirstFailure.
Proof.
  intros Hstop.
  destruct (IndexJs.deployBranch Scenario.refusing Feat Scenario.twoIndexFiles)
    as [r w'] eqn:Hrun.
  specialize (Hstop Scenario.refusing Feat Scenario.twoIndexFiles w' r
                    eq_refl Hrun 0).
  vm_compute in Hrun. injection Hrun as _ <-.
  cbn [trace] in Hstop.
  specialize (Hstop _ "Request failed with status code 401"%string eq_refl eq_refl).
  vm_compute in Hstop. discriminate.
Qed.

(** ** The address of the requests *)

Lemma requestFor_shape (cfg : Manifest) (e : gmap string string)
    (f : string * string) :
  method (requestFor cfg e f) = "post"
  /\ url (requestFor cfg e f) = (str (realm cfg) +:+ "/db/" +:+ str (dbid cfg))
  /\ headers (requestFor cfg e f) = QbJs.requestHeaders.
Proof. repeat split. Qed.

(** C5, as the code has it.  Once the checks of the deploy branch are
    passed, one request is sent for every loaded file, each of them a
    POST whose address is the realm of the manifest, as it is written
    there, followed by [/db/] and the target identifier: nothing is put
    in front of the realm. *)
Theorem C5_one_post_per_file_to_realm_db_target
    (O : Oracle) (t : DeploymentType) (w : World) (cfg : Manifest)
    (fcs : list FileConf) (configs : DevConfig) (prefix realm' dbid' : string) :
  qbcliJson w = Some cfg ->
  filesConf cfg = Some fcs ->
  configstore w !! repositoryId cfg = Some configs ->
  confirms O t = true ->
  Helpers.prefixGenerator (prefixConfigOf cfg configs) t (repositoryId cfg)
    = inr prefix ->
  loaded (disk w) fcs <> [] ->
  realm cfg = Some realm' ->
  dbid cfg = Some dbid' ->
  exists (w' : World) (sent : list Request),
    IndexJs.deployBranch O t w = (Returned tt, w')
    /\ requestsOf (trace w') = requestsOf (trace w) ++ sent
    /\ length sent = length (loaded (disk w) fcs)
    /\ forall req, In req sent ->
         method req = "post" /\ url req = (realm' +:+ "/db/" +:+ dbid').
Proof.
  intros Hcfg Hfiles Hstore Hyes Hprefix Hsome Hrealm Hdbid.
  assert (fcs <> []) as Hne by (intros ->; by apply Hsome).
  eexists. eexists. split.
  { exact (deploy_batch O t w cfg fcs Hcfg Hfiles configs Hne Hstore Hyes
                        prefix Hprefix Hsome). }
  cbn [trace addTrace]. split.
  { rewrite !requestsOf_app, requestsOf_confirm, requestsOf_reads.
    rewrite requestsOf_upsertTrace. reflexivity. }
  split.
  - cbn [app]. by rewrite !List.length_map.
  - intros req Hin. cbn [app] in Hin.
    apply in_map_iff in Hin as (f & <- & _).
    destruct (requestFor_shape cfg (env w) f) as (Hm & Hu & _).
    rewrite Hm, Hu, Hrealm, Hdbid. split; reflexivity.
Qed.

(** The scenario of the spec: one request, sent to [acme/db/abc123]. *)
Lemma C5_one_post_per_file_to_realm_db_target_witness :
  exists (w' : World) (req : Request),
    IndexJs.deployBranch Scenario.accepting Prod Scenario.oneFile
      = (Returned tt, w')
    /\ requestsOf (trace w') = [req]
    /\ url req = "acme/db/abc123".
Proof.
  destruct (C5_one_post_per_file_to_realm_db_target
              Scenario.accepting Prod Scenario.oneFile
              (Scenario.manifestOf (Some "P")
                 [Scenario.entry "a.js" (FlagStr "yes")])
              [Scenario.entry "a.js" (FlagStr "yes")]
              (mkDevConfig (Some "F")) "P" "acme" "abc123")
    as (w' & sent & Hrun & Hreqs & Hlen & Hall);
    [reflexivity | reflexivity | by vm_compute | reflexivity | reflexivity
    | by vm_compute | reflexivity | reflexivity | ].
  destruct sent as [|req [|? ?]]; try discriminate.
  exists w', req. split; [exact Hrun|]. split; [exact Hreqs|].
  apply Hall. left; reflexivity.
Defined.

(** C5, as the spec words it, fails: in the scenario of the spec the one
    request goes to [acme/db/abc123], without a scheme. *)
Lemma C5_https_address_refuted : ~ PostsToHttpsRealm.
Proof.
  intros Hhttps.
  destruct (IndexJs.deployBranch Scenario.accepting Prod Scenario.oneFile)
    as [r w'] eqn:Hrun.
  pose proof (Hhttps Scenario.accepting Prod Scenario.oneFile w' r
                _ "acme"%string "abc123"%string
                (requestFor (Scenario.manifestOf (Some "P")
                               [Scenario.entry "a.js" (FlagStr "yes")])
                            (env Scenario.oneFile) ("Pa.js", "1")%string)
                eq_refl eq_refl eq_refl eq_refl Hrun) as H.
  vm_compute in Hrun. injection Hrun as _ <-.
  specialize (H (or_introl eq_refl)). vm_compute in H. discriminate.
Qed.

(** ** Files without contents *)

(** C2 fails on the code: a listed file that is on the disk and holds
    nothing is loaded like any other, and the deploy branch posts it
    with an empty page body and prints that the deployment went well. *)
Theorem C2_blank_file_is_loaded_and_posted :
  ~ NeverLoadsBlankFile
  /\ (exists w',
        IndexJs.getAllFileContents
          [Scenario.entry "x.html" FlagAbsent] "P" Scenario.blankFile
        = (Returned [("x.html", "", false)], w'))
  /\ (exists w',
        IndexJs.deployBranch Scenario.accepting Prod Scenario.blankFile
          = (Returned tt, w')
        /\ requestsOf (trace w')
           = [requestFor (Scenario.manifestOf (Some "P")
                            [Scenario.entry "x.html" FlagAbsent])
                         (env Scenario.blankFile) ("Px.html", "")]
        /\ alertsOf (trace w') = [AlertSuccess (MSG_DEPLOYED Prod)]).
Proof.
  split; [|split].
  - intros Hnever.
    pose proof (getAllFileContents_run
                  [Scenario.entry "x.html" FlagAbsent] "P"
                  Scenario.blankFile) as Hrun.
    apply (Hnever _ _ _ _ _ ("x.html", "", false)%string Hrun);
      [vm_compute; left; reflexivity | reflexivity].
  - eexists. rewrite getAllFileContents_run. reflexivity.
  - eexists. split; [by vm_compute|]. split; reflexivity.
Qed.

(** For every manifest and every disk, the contents of a loaded file
    are those on the disk, empty or not. *)
Lemma loader_keeps_blank_files (w : World) (fcs : list FileConf)
    (prefix : string) (fileConf : FileConf) :
  In fileConf fcs ->
  disk w !! filename fileConf = Some ""%string ->
  exists arr w',
    IndexJs.getAllFileContents fcs prefix w = (Returned arr, w')
    /\ In (filename fileConf, ""%string, isYes (isIndexFile fileConf)) arr.
Proof.
  intros Hin Hblank. eexists. eexists. split.
  - apply getAllFileContents_run.
  - apply loaded_In. exists fileConf. split; [exact Hin|].
    unfold loadOne. by rewrite Hblank.
Qed.

(** ** The index file *)

Lemma indexAfter_snoc (idx : option string) (arr : list Loaded) (x : Loaded) :
  indexAfter idx (arr ++ [x])
  = if loadedIsIndex x then Some (loadedName x) else indexAfter idx arr.
Proof. unfold indexAfter. rewrite fold_left_app. reflexivity. Qed.

Lemma indexAfter_last_claimant (arr : list Loaded) :
  match indexAfter None arr with
  | None => forall x, In x arr -> loadedIsIndex x = false
  | Some n =>
      exists before c after,
        arr = before ++ (n, c, true) :: after
        /\ forall x, In x after -> loadedIsIndex x = false
  end.
Proof.
  induction arr as [|x arr IH] using rev_ind.
  - cbn. intros x [].
  - rewrite indexAfter_snoc. destruct x as [[n c] b]. destruct b; cbn.
    + exists arr, c, []. split; [reflexivity | intros x []].
    + destruct (indexAfter None arr) as [n'|].
      * destruct IH as (before & c' & after & -> & Hafter).
        exists before, c', (after ++ [(n, c, false)]). split.
        { by rewrite <- app_assoc. }
        intros x Hin. apply in_app_or in Hin as [Hin | [<- | []]];
          [by apply Hafter | reflexivity].
      * intros x Hin. apply in_app_or in Hin as [Hin | [<- | []]];
          [by apply IH | reflexivity].
Qed.

(** C3, as the code has it.  The loader marks every surviving entry
    whose [isIndexFile] is the word yes, however many there are; the
    deploy branch keeps one name in [indexFileName], and that name is
    the one of the last marked entry in manifest order. *)
Theorem C3_last_index_claim_is_kept
    (w : World) (fcs : list FileConf) (prefix : string) :
  let arr := loaded (disk w) fcs in
  (exists w', IndexJs.getAllFileContents fcs prefix w = (Returned arr, w'))
  /\ (forall x, In x arr <->
        exists fileConf,
          In fileConf fcs
          /\ disk w !! filename fileConf = Some (loadedContents x)
          /\ loadedName x = filename fileConf
          /\ loadedIsIndex x = isYes (isIndexFile fileConf))
  /\ match snd (formatFiles prefix arr) with
     | None => forall x, In x arr -> loadedIsIndex x = false
     | Some n =>
         exists before c after,
           arr = before ++ (n, c, true) :: after
           /\ forall x, In x after -> loadedIsIndex x = false
     end.
Proof.
  intros arr. split; [|split].
  - eexists. apply getAllFileContents_run.
  - intros [[n c] b]. unfold arr. rewrite loaded_In. unfold loadOne.
    split.
    + intros (fc & Hin & Hone). exists fc. split; [exact Hin|].
      destruct (disk w !! filename fc) as [c'|]; [|discriminate].
      injection Hone as <- <- <-. repeat split.
    + intros (fc & Hin & Hdisk & Hname & Hflag). exists fc.
      split; [exact Hin|]. cbn in Hdisk, Hname, Hflag.
      rewrite Hdisk. by subst.
  - rewrite formatFiles_snd. apply indexAfter_last_claimant.
Qed.

(** C3, as the spec words it, fails: when the two files of a manifest
    both claim to be the index file, both are marked, and the name that
    is kept is the one of the second. *)
Lemma C3_first_index_claim_refuted :
  ~ FirstIndexClaimWins
  /\ exists arr w',
       IndexJs.getAllFileContents
         [Scenario.entry "a.js" (FlagStr "yes");
          Scenario.entry "b.js" (FlagStr "yes")]
         "P" Scenario.twoIndexFiles = (Returned arr, w')
       /\ length (List.filter loadedIsIndex arr) = 2
       /\ head (map loadedName (List.filter loadedIsIndex arr))
          = Some "a.js"%string
       /\ snd (formatFiles "P" arr) = Some "b.js"%string.
Proof.
  pose proof (getAllFileContents_run
                [Scenario.entry "a.js" (FlagStr "yes");
                 Scenario.entry "b.js" (FlagStr "yes")]
                "P" Scenario.twoIndexFiles) as Hrun.
  split.
  - intros Hfirst. apply Hfirst in Hrun as [Hcount _].
    vm_compute in Hcount. lia.
  - eexists. eexists. split; [exact Hrun|]. repeat split.
Qed.

(** ** The empty prefix *)

(** C4.  When the prefix of the requested deployment type resolves to
    the empty string, the deploy branch sends no request and reads no
    file, whatever the other checks say; and when the checks before the
    prefix are passed, it ends with the MissingPrefix failure. *)
Theorem C4_empty_prefix_fails_before_any_transmission
    (O : Oracle) (t : DeploymentType) (w : World) (cfg : Manifest)
    (configs : DevConfig) :
  qbcliJson w = Some cfg ->
  configstore w !! repositoryId cfg = Some configs ->
  Helpers.resolvePrefix (prefixConfigOf cfg configs) t = Some ""%string ->
  exists (r : Outcome unit) (w' : World),
    IndexJs.deployBranch O t w = (r, w')
    /\ requestsOf (trace w') = requestsOf (trace w)
    /\ readsOf (trace w') = readsOf (trace w)
    /\ forall fcs,
         filesConf cfg = Some fcs -> fcs <> [] -> confirms O t = true ->
         r = Thrown MissingPrefix.
Proof.
  intros Hcfg Hstore Hempty.
  assert (Helpers.prefixGenerator (prefixConfigOf cfg configs) t
            (repositoryId cfg) = inl MissingPrefix) as Hgen.
  { unfold Helpers.prefixGenerator. by rewrite Hempty. }
  destruct (filesConf cfg) as [fcs|] eqn:Hfiles.
  - destruct (decide (fcs = [])) as [Hnil | Hne].
    + eexists. eexists. split.
      { exact (deploy_no_files O t w cfg fcs Hcfg Hfiles Hnil). }
      cbn [trace addTrace]. rewrite requestsOf_app, readsOf_app, !app_nil_r.
      repeat split. intros fcs' Hfcs' Hne'. congruence.
    + destruct (confirms O t) eqn:Hyes.
      * eexists. eexists. split.
        { exact (deploy_prefix_fails O t w cfg fcs Hcfg Hfiles configs Hne
                                     Hstore Hyes MissingPrefix Hgen). }
        cbn [trace addTrace].
        rewrite requestsOf_app, readsOf_app, requestsOf_confirm, readsOf_confirm.
        rewrite !app_nil_r. repeat split.
      * eexists. eexists. split.
        { exact (deploy_declined O t w cfg fcs Hcfg Hfiles configs Hne
                                 Hstore Hyes). }
        cbn [trace addTrace].
        rewrite requestsOf_app, readsOf_app, requestsOf_confirm, readsOf_confirm.
        rewrite !app_nil_r. repeat split. intros; discriminate.
  - eexists. eexists. split.
    { unfold IndexJs.deployBranch. run_js. rewrite Hcfg, Hfiles. reflexivity. }
    repeat split. intros; discriminate.
Qed.

(** A production deployment with an empty production prefix. *)
Lemma C4_empty_prefix_fails_before_any_transmission_witness :
  exists w',
    IndexJs.deployBranch Scenario.accepting Prod Scenario.emptyProdPrefix
      = (Thrown MissingPrefix, w')
    /\ requestsOf (trace w') = []
    /\ readsOf (trace w') = [].
Proof.
  destruct (C4_empty_prefix_fails_before_any_transmission
              Scenario.accepting Prod Scenario.emptyProdPrefix
              (Scenario.manifestOf (Some ""%string)
                 [Scenario.entry "a.js" FlagAbsent])
              (mkDevConfig (Some "F"%string)))
    as (r & w' & Hrun & Hreq & Hread & Hfail);
    [reflexivity | by vm_compute | reflexivity | ].
  exists w'.
  rewrite (Hfail [Scenario.entry "a.js" FlagAbsent]) in Hrun;
    [ | reflexivity | discriminate | reflexivity ].
  split; [exact Hrun|]. split; [exact Hreq | exact Hread].
Defined.

(** ** Nothing to deploy *)

(** C6.  When the manifest lists no file, the deploy branch prints that
    files must be listed; when files are listed but none of them is on
    the disk, and the checks before the loading are passed, it prints
    that nothing could be loaded.  Both are the EmptyDeployment failure
    of the spec.  In either case, and whatever the checks say, no request
    is sent. *)
Theorem C6_empty_deployment_sends_nothing
    (O : Oracle) (t : DeploymentType) (w : World) (cfg : Manifest)
    (fcs : list FileConf) :
  qbcliJson w = Some cfg ->
  filesConf cfg = Some fcs ->
  (forall fileConf, In fileConf fcs -> disk w !! filename fileConf = None) ->
  exists (r : Outcome unit) (w' : World),
    IndexJs.deployBranch O t w = (r, w')
    /\ requestsOf (trace w') = requestsOf (trace w)
    /\ (fcs = [] ->
        r = Returned tt
        /\ trace w' = trace w ++ [AlertError MSG_NO_FILES_LISTED])
    /\ (fcs <> [] ->
        forall configs prefix,
          configstore w !! repositoryId cfg = Some configs ->
          confirms O t = true ->
          Helpers.prefixGenerator (prefixConfigOf cfg configs) t
                                  (repositoryId cfg) = inr prefix ->
          r = Returned tt
          /\ trace w'
             = trace w ++ confirmEvents t ++ [AlertError MSG_NOTHING_LOADED]).
Proof.
  intros Hcfg Hfiles Hmissing.
  pose proof (loaded_all_missing (disk w) fcs Hmissing) as Hnone.
  destruct (decide (fcs = [])) as [Hnil | Hne].
  { eexists. eexists. split.
    { exact (deploy_no_files O t w cfg fcs Hcfg Hfiles Hnil). }
    cbn [trace addTrace]. rewrite requestsOf_app, app_nil_r.
    split; [reflexivity|]. split; [by intros _ | by intros Hne]. }
  destruct (configstore w !! repositoryId cfg) as [configs|] eqn:Hstore.
  2:{ eexists. eexists. split.
      { exact (deploy_not_initialized O t w cfg fcs Hcfg Hfiles Hne Hstore). }
      cbn [trace addTrace]. rewrite requestsOf_app, app_nil_r.
      split; [reflexivity|]. split; [by intros Hnil|].
      intros _ configs prefix Hsome. discriminate. }
  destruct (confirms O t) eqn:Hyes.
  2:{ eexists. eexists. split.
      { exact (deploy_declined O t w cfg fcs Hcfg Hfiles configs Hne
                               Hstore Hyes). }
      cbn [trace addTrace]. rewrite requestsOf_app, requestsOf_confirm, app_nil_r.
      split; [reflexivity|]. split; [by intros Hnil|].
      intros _ configs' prefix _ Hno. discriminate. }
  destruct (Helpers.prefixGenerator (prefixConfigOf cfg configs) t
                                    (repositoryId cfg)) as [e | prefix] eqn:Hgen.
  { eexists. eexists. split.
    { exact (deploy_prefix_fails O t w cfg fcs Hcfg Hfiles configs Hne
                                 Hstore Hyes e Hgen). }
    cbn [trace addTrace]. rewrite requestsOf_app, requestsOf_confirm, app_nil_r.
    split; [reflexivity|]. split; [by intros Hnil|].
    intros _ configs' prefix [= <-] _ Hgen'. congruence. }
  eexists. eexists. split.
  { exact (deploy_nothing_loaded O t w cfg fcs Hcfg Hfiles configs Hne
                                 Hstore Hyes prefix Hgen Hnone). }
  cbn [trace addTrace].
  rewrite !requestsOf_app, requestsOf_confirm, app_nil_r.
  split; [reflexivity|]. split; [by intros Hnil|].
  intros _ configs' prefix' _ _ _. split; reflexivity.
Qed.

(** One listed file, which is not on the disk. *)
Lemma C6_empty_deployment_sends_nothing_witness :
  exists w',
    IndexJs.deployBranch Scenario.accepting Prod Scenario.allMissing
      = (Returned tt, w')
    /\ requestsOf (trace w') = []
    /\ trace w' = [Confirm Prod; AlertError MSG_NOTHING_LOADED].
Proof.
  destruct (C6_empty_deployment_sends_nothing
              Scenario.accepting Prod Scenario.allMissing
              (Scenario.manifestOf (Some "P"%string)
                 [Scenario.entry "gone.js" FlagAbsent])
              [Scenario.entry "gone.js" FlagAbsent])
    as (r & w' & Hrun & Hreq & _ & Hload);
    [reflexivity | reflexivity | | ].
  { intros fileConf [<- | []]. reflexivity. }
  destruct (Hload ltac:(discriminate) (mkDevConfig (Some "F"%string))
                  "P"%string) as [-> Htrace];
    [by vm_compute | reflexivity | reflexivity | ].
  exists w'. split; [exact Hrun|]. split; [exact Hreq | exact Htrace].
Defined.

(** ** Files that are not on the disk *)

(** C7, as the code has it.  The loader always returns.  A listed file
    that is not on the disk is left out and nothing is printed for it,
    neither a warning nor an error; every listed file that is on the
    disk is loaded, in the order of the manifest. *)
Theorem C7_missing_file_is_skipped_silently
    (w : World) (fcs : list FileConf) (prefix : string) :
  exists (arr : list Loaded) (w' : World),
    IndexJs.getAllFileContents fcs prefix w = (Returned arr, w')
    /\ arr = omap (loadOne (disk w)) fcs
    /\ alertsOf (trace w') = alertsOf (trace w)
    /\ (forall fileConf contents,
          In fileConf fcs ->
          disk w !! filename fileConf = Some contents ->
          In (filename fileConf, contents, isYes (isIndexFile fileConf)) arr)
    /\ (forall x, In x arr -> disk w !! loadedName x = Some (loadedContents x)).
Proof.
  eexists. eexists. split; [apply getAllFileContents_run|].
  split; [reflexivity|]. split; [|split].
  - cbn [trace addTrace]. by rewrite alertsOf_app, alertsOf_reads, app_nil_r.
  - intros fc contents Hin Hdisk. apply loaded_In. exists fc.
    split; [exact Hin|]. unfold loadOne. by rewrite Hdisk.
  - intros x Hin. apply loaded_In in Hin as (fc & _ & Hone).
    unfold loadOne in Hone.
    destruct (disk w !! filename fc) as [c|] eqn:Hdisk; [|discriminate].
    injection Hone as <-. exact Hdisk.
Qed.

(** C7, as the spec words it, fails: a listed file that is not on the
    disk is skipped and no warning is printed. *)
Lemma C7_warning_on_missing_file_refuted :
  ~ WarnsOnMissingFile
  /\ exists w',
       IndexJs.getAllFileContents
         [Scenario.entry "gone.js" FlagAbsent; Scenario.entry "a.js" FlagAbsent]
         "P" Scenario.oneMissing
       = (Returned [("a.js", "1", false)%string], w')
       /\ trace w' = [ReadFile "a.js"].
Proof.
  pose proof (getAllFileContents_run
                [Scenario.entry "gone.js" FlagAbsent;
                 Scenario.entry "a.js" FlagAbsent]
                "P" Scenario.oneMissing) as Hrun.
  split.
  - intros Hwarn.
    destruct (Hwarn Scenario.oneMissing _
                    [Scenario.entry "gone.js" FlagAbsent;
                     Scenario.entry "a.js" FlagAbsent] _ _
                    (Scenario.entry "gone.js" FlagAbsent)
                    eq_refl (or_introl eq_refl) eq_refl Hrun) as [msg Hin].
    vm_compute in Hin. destruct Hin as [Hin | []]. discriminate.
  - eexists. split; [exact Hrun | reflexivity].
Qed.

(** ** Running [init] again *)

Lemma defaultEnv_run (k v : string) (w : World) :
  exists e',
    defaultEnv k v w
    = (Returned tt,
       mkWorld e' (qbcliJson w) (disk w) (configstore w) (keychain w) (trace w))
    /\ forall k', k' <> k -> e' !! k' = env w !! k'.
Proof.
  unfold defaultEnv. run_js. destruct (truthy (env w !! k)).
  - exists (env w). destruct w; split; [reflexivity | done].
  - exists (<[k := v]> (env w)). split; [reflexivity|].
    intros k' Hk'. by rewrite lookup_insert_ne.
Qed.

Lemma bind_run {A B : Type} (c : M A) (k : A -> M B) (w w1 : World) (a : A) :
  c w = (Returned a, w1) -> bind c k w = k a w1.
Proof. intros H. unfold bind. by rewrite H. Qed.

Lemma setSecureToken_run (O : Oracle) (key : string) (token : option string)
    (w : World) :
  exists kc' es,
    Part000.setSecureToken O key token w
    = (Returned tt,
       mkWorld (env w) (qbcliJson w) (disk w) (configstore w) kc'
               (trace w ++ es)).
Proof.
  unfold Part000.setSecureToken. run_js.
  destruct (keytarFailure O) as [m|].
  - exists (keychain w), [AlertError Part000.MSG_KEYTAR; AlertError m].
    unfold addTrace; cbn. by rewrite <- app_assoc.
  - exists (<[key := token]> (keychain w)), [].
    unfold setSecret. by rewrite app_nil_r.
Qed.

Lemma qbcliTemplate_run (w : World) :
  Template.qbcliTemplate w = (Returned (templateOf (env w)), w).
Proof. reflexivity. Qed.

Lemma defaulted_truthy (e : gmap string string) (k v : string) :
  v <> ""%string -> truthy (Some (defaulted e k v)) = true.
Proof.
  intros Hv. unfold defaulted.
  destruct (e !! k) as [x|]; [destruct (truthy (Some x)) eqn:Hx|];
    try exact Hx; by destruct v.
Qed.

Lemma defaulted_keeps (e : gmap string string) (k v x : string) :
  e !! k = Some x -> x <> ""%string -> defaulted e k v = x.
Proof. intros Hk Hx. unfold defaulted. rewrite Hk. by destruct x. Qed.

Lemma defaultEnv_eq (k v : string) (w : World) :
  defaultEnv k v w = (Returned tt, setEnv k (defaulted (env w) k v) w).
Proof.
  unfold defaultEnv, defaulted. run_js.
  destruct (env w !! k) as [x|] eqn:Hk; [|reflexivity].
  destruct (truthy (Some x)); [|reflexivity].
  unfold setEnv. rewrite (insert_id _ _ _ Hk). by destruct w.
Qed.

Lemma defaulted_insert_ne (e : gmap string string) (k k' v x : string) :
  k' <> k -> defaulted (<[k' := x]> e) k v = defaulted e k v.
Proof. intros Hne. unfold defaulted. by rewrite lookup_insert_ne. Qed.

(** The world that the [init] branch of [src/index.js] leaves. *)
Lemma index_init_world (O : Oracle) (w : World) :
  IndexJs.initBranch O w
  = (Returned tt,
     {| env := envOfInit (env w);
        qbcliJson :=
          match saveJSONFailure O with
          | None => Some (manifestOfInit (qbcliJson w)
                            (templateOf (envOfInit (env w))))
          | Some _ => qbcliJson w
          end;
        disk := disk w;
        configstore :=
          <[env w !! "REPOSITORY_ID"
            := mkDevConfig
                 (Some (defaulted (env w) "CUSTOM_PREFIX_FEATURE" "F"))]>
            (configstore w);
        keychain := keychain w;
        trace :=
          trace w ++ [match saveJSONFailure O with
                      | None => AlertSuccess MSG_INIT_DONE
                      | Some m => AlertError m
                      end] |}).
Proof.
  unfold IndexJs.initBranch.
  erewrite bind_run by reflexivity.
  erewrite bind_run by apply defaultEnv_eq.
  erewrite bind_run by apply defaultEnv_eq.
  erewrite bind_run by apply defaultEnv_eq.
  erewrite bind_run by apply qbcliTemplate_run.
  erewrite bind_run by reflexivity.
  unfold IndexJs.saveFeaturePrefix, Files.saveJSONToFile.
  cbn [env setEnv qbcliJson disk configstore keychain trace].
  rewrite !defaulted_insert_ne by discriminate.
  fold (envOfInit (env w)).
  assert (envOfInit (env w) !! "CUSTOM_PREFIX_FEATURE"
          = Some (defaulted (env w) "CUSTOM_PREFIX_FEATURE" "F")) as ->.
  { unfold envOfInit. apply lookup_insert_eq. }
  unfold manifestOfInit.
  destruct (saveJSONFailure O) as [m|]; run_js; reflexivity.
Qed.

Lemma envOfInit_other (e : gmap string string) (k : string) :
  k <> "CUSTOM_PREFIX"%string -> k <> "CUSTOM_PREFIX_PROD"%string ->
  k <> "CUSTOM_PREFIX_FEATURE"%string ->
  envOfInit e !! k = e !! k.
Proof. intros H1 H2 H3. unfold envOfInit. by rewrite !lookup_insert_ne. Qed.

Lemma envOfInit_dev (e : gmap string string) :
  envOfInit e !! "CUSTOM_PREFIX" = Some (defaulted e "CUSTOM_PREFIX" "D").
Proof.
  unfold envOfInit. rewrite lookup_insert_ne, lookup_insert_ne by discriminate.
  apply lookup_insert_eq.
Qed.

Lemma index_init_run (O : Oracle) (w : World) (prior : Manifest) :
  qbcliJson w = Some prior ->
  saveJSONFailure O = None ->
  exists w',
    IndexJs.initBranch O w = (Returned tt, w')
    /\ qbcliJson w'
       = Some {| urlQueryString := urlQueryString prior;
                 repositoryId := env w !! "REPOSITORY_ID";
                 prodPrefix := env w !! "CUSTOM_PREFIX_PRODUCTION";
                 devPrefix := Some (defaulted (env w) "CUSTOM_PREFIX" "D");
                 dbid := env w !! "DBID";
                 devDbid :=
                   if bool_decide
                        (env w !! "DEV_AND_PROD_QUICKBASE_APPLICATIONS"
                         = Some "yes"%string)
                   then env w !! "DEV_DBID" else Some ""%string;
                 devAndProdQuickBaseApplications :=
                   env w !! "DEV_AND_PROD_QUICKBASE_APPLICATIONS";
                 realm := env w !! "REALM";
                 filesConf := filesConf prior |}.
Proof.
  intros Hprior Hsave. eexists. split; [apply index_init_world|].
  rewrite Hsave, Hprior. cbn [qbcliJson manifestOfInit].
  unfold keepPrior, templateOf.
  cbn [urlQueryString repositoryId prodPrefix devPrefix dbid devDbid
       devAndProdQuickBaseApplications realm filesConf].
  rewrite envOfInit_dev, !envOfInit_other by discriminate. reflexivity.
Qed.

Lemma part000_init_run (O : Oracle) (w : World) (prior : Manifest) :
  qbcliJson w = Some prior ->
  saveJSONFailure O = None ->
  exists w',
    Part000.initBranch O w = (Returned tt, w')
    /\ qbcliJson w'
       = Some {| urlQueryString := urlQueryString prior;
                 repositoryId := env w !! "REPOSITORY_ID";
                 prodPrefix := env w !! "CUSTOM_PREFIX_PRODUCTION";
                 devPrefix := env w !! "CUSTOM_PREFIX";
                 dbid := env w !! "DBID";
                 devDbid :=
                   if bool_decide
                        (env w !! "DEV_AND_PROD_QUICKBASE_APPLICATIONS"
                         = Some "yes"%string)
                   then env w !! "DEV_DBID" else Some ""%string;
                 devAndProdQuickBaseApplications :=
                   env w !! "DEV_AND_PROD_QUICKBASE_APPLICATIONS";
                 realm := env w !! "REALM";
                 filesConf := filesConf prior |}.
Proof.
  intros Hprior Hsave.
  unfold Part000.initBranch, Part000.setSecureToken,
    Part000.saveFeaturePrefix, Template.qbcliTemplate, Files.saveJSONToFile.
  run_js. rewrite Hprior.
  destruct (saveJSONFailure O); [discriminate|].
  destruct (keytarFailure O); case_bool_decide;
    eexists; (split; [reflexivity|]); reflexivity.
Qed.

(** C8.  When a manifest is already there and the write succeeds, [init]
    ends by writing a manifest whose [urlQueryString] and [filesConf]
    are those of the previous manifest, while each of the seven other
    fields is the one of the fresh template, read from the environment
    and not from the previous manifest.  This holds for the [init]
    branch of [src/index.js], where the development prefix of the
    environment has been given its default D first, and for the one of
    [src/unnamed/part_000], where the environment is read as it is. *)
Theorem C8_init_keeps_query_string_and_files
    (O : Oracle) (w : World) (prior : Manifest) :
  qbcliJson w = Some prior ->
  saveJSONFailure O = None ->
  (exists w',
     IndexJs.initBranch O w = (Returned tt, w')
     /\ qbcliJson w'
        = Some {| urlQueryString := urlQueryString prior;
                  repositoryId := env w !! "REPOSITORY_ID";
                  prodPrefix := env w !! "CUSTOM_PREFIX_PRODUCTION";
                  devPrefix := Some (defaulted (env w) "CUSTOM_PREFIX" "D");
                  dbid := env w !! "DBID";
                  devDbid :=
                    if bool_decide
                         (env w !! "DEV_AND_PROD_QUICKBASE_APPLICATIONS"
                          = Some "yes"%string)
                    then env w !! "DEV_DBID" else Some ""%string;
                  devAndProdQuickBaseApplications :=
                    env w !! "DEV_AND_PROD_QUICKBASE_APPLICATIONS";
                  realm := env w !! "REALM";
                  filesConf := filesConf prior |})
  /\ (exists w',
        Part000.initBranch O w = (Returned tt, w')
        /\ qbcliJson w'
           = Some {| urlQueryString := urlQueryString prior;
                     repositoryId := env w !! "REPOSITORY_ID";
                     prodPrefix := env w !! "CUSTOM_PREFIX_PRODUCTION";
                     devPrefix := env w !! "CUSTOM_PREFIX";
                     dbid := env w !! "DBID";
                     devDbid :=
                       if bool_decide
                            (env w !! "DEV_AND_PROD_QUICKBASE_APPLICATIONS"
                             = Some "yes"%string)
                       then env w !! "DEV_DBID" else Some ""%string;
                     devAndProdQuickBaseApplications :=
                       env w !! "DEV_AND_PROD_QUICKBASE_APPLICATIONS";
                     realm := env w !! "REALM";
                     filesConf := filesConf prior |}).
Proof.
  intros Hprior Hsave. split.
  - by apply index_init_run.
  - by apply part000_init_run.
Qed.

(** A manifest with a query string and one file, and [init] run again:
    the two fields stay, and the prefixes, the target and the realm of
    the old manifest give way to what the environment holds. *)
Lemma C8_init_keeps_query_string_and_files_witness :
  exists w',
    IndexJs.initBranch Scenario.accepting Scenario.initialized
      = (Returned tt, w')
    /\ qbcliJson w'
       = Some {| urlQueryString := Some "view=all"%string;
                 repositoryId := None;
                 prodPrefix := None;
                 devPrefix := Some "D"%string;
                 dbid := None;
                 devDbid := Some ""%string;
                 devAndProdQuickBaseApplications := None;
                 realm := None;
                 filesConf := Some [Scenario.entry "a.js" (FlagStr "yes")] |}.
Proof.
  destruct (C8_init_keeps_query_string_and_files
              Scenario.accepting Scenario.initialized
              {| urlQueryString := Some "view=all"%string;
                 repositoryId := Some "repo"%string;
                 prodPrefix := Some "P"%string;
                 devPrefix := Some "D"%string;
                 dbid := Some "abc123"%string;
                 devDbid := Some ""%string;
                 devAndProdQuickBaseApplications := Some "no"%string;
                 realm := Some "acme"%string;
                 filesConf := Some [Scenario.entry "a.js" (FlagStr "yes")] |}
              eq_refl eq_refl)
    as [(w' & Hrun & Hm) _].
  exists w'. split; [exact Hrun|]. rewrite Hm. by vm_compute.
Defined.

(** ** The launch command *)

(** C9 fails on the code: whatever the command line and the world, the
    launch branch ends in [getLaunchParameters] with the ReferenceError
    for [qbCliJsonExists], before the query string is encoded and
    before the link is put together.  No link is built and none is
    opened; the world is left as it was. *)
Theorem C9_launch_throws_before_the_link_is_built
    (args : list Command) (w : World) :
  Launch.launchBranch args w
  = (Thrown (ReferenceError "qbCliJsonExists is not defined"), w).
Proof. reflexivity. Qed.

(** ** The two pipelines *)

(** C10 fails on the code.  In the scenario of the spec, [src/index.js]
    posts the page [Pa.js] with the body [1].  The deploy branch of
    [part_000] passes the same checks, asks for the same confirmation,
    and then evaluates [getAllFileContents], which that file does not
    declare: the ReferenceError is caught by the [catch] of the branch,
    which prints its text, and no file is read and no request is
    sent. *)
Theorem C10_part_000_sends_no_request :
  ~ SameRequests
  /\ (exists w1,
        IndexJs.deployBranch Scenario.accepting Prod Scenario.oneFile
          = (Returned tt, w1)
        /\ requestsOf (trace w1)
           = [QbJs.buildRequest (Some "abc123") (Some "acme") (Some "ut") None
                                (JStr "Pa.js") (JStr "1")]%string)
  /\ (exists w2,
        Part000.deployBranch Scenario.accepting Prod Scenario.oneFile
          = (Returned tt, w2)
        /\ trace w2 = [Confirm Prod; AlertError MSG_LOADING_THREW]
        /\ requestsOf (trace w2) = []).
Proof.
  split; [|split].
  - intros Hsame.
    specialize (Hsame Scenario.accepting Prod Scenario.oneFile _ _ _ _
                      eq_refl eq_refl).
    vm_compute in Hsame. discriminate.
  - eexists. split; [by vm_compute | reflexivity].
  - eexists. split; [by vm_compute|]. split; reflexivity.
Qed.


(** * Further properties of the code *)

(** ** One call of [handleAPICalls] *)

(** X1.  [handleAPICalls] never throws, whatever it is given and
    whatever the remote service answers: it returns after printing
    exactly one alert and sending at most one request, and it reads no
    file.  Given [undefined] it sends nothing and prints an error. *)
Theorem handleAPICalls_always_returns_with_one_alert
    (O : Oracle) (t : DeploymentType) (v : JsVal) (cfg : Manifest) (w : World) :
  exists es,
    IndexJs.handleAPICalls O t v cfg w = (Returned tt, addTrace w es)
    /\ length (alertsOf es) = 1
    /\ length (requestsOf es) <= 1
    /\ readsOf es = []
    /\ (v = JUndefined -> exists m, es = [AlertError m]).
Proof.
  unfold IndexJs.handleAPICalls, QbJs.addUpdateDbPage, QbJs.axios.
  destruct v as [|s|l]; cbn [getIndex]; run_js; cbn [trace env addTrace].
  - eexists. split; [reflexivity|]. cbn. repeat split; eauto.
  - match goal with |- context [remote O ?h ?r] => destruct (remote O h r) end;
      (eexists; split;
       [unfold addTrace; cbn [trace env]; rewrite <- app_assoc; reflexivity|]);
      cbn; repeat split; try lia; intros; discriminate.
  - match goal with |- context [remote O ?h ?r] => destruct (remote O h r) end;
      (eexists; split;
       [unfold addTrace; cbn [trace env]; rewrite <- app_assoc; reflexivity|]);
      cbn; repeat split; try lia; intros; discriminate.
Qed.

(** ** The shape of a deployment *)

Lemma isConfirm_upsertTrace (O : Oracle) (t : DeploymentType) (cfg : Manifest)
    (e : gmap string string) (files : list (string * string)) :
  forall sent : list Request,
    forallb (fun ev => negb (isConfirm ev)) (upsertTrace O t cfg e sent files)
    = true.
Proof.
  induction files as [|f rest IH]; intros sent; [done|].
  cbn [upsertTrace forallb]. rewrite IH.
  by destruct (remote O sent (requestFor cfg e f)).
Qed.

(** Whatever happens, the deploy branch only adds events: the prompt,
    if any, then the reads, then requests and alerts. *)
Lemma deployBranch_shape (O : Oracle) (t : DeploymentType) (w : World) :
  exists (r : Outcome unit) (c : list Event) (names : list string)
         (rest : list Event),
    IndexJs.deployBranch O t w
      = (r, addTrace w (c ++ map ReadFile names ++ rest))
    /\ (c = [] \/ c = confirmEvents t)
    /\ readsOf rest = []
    /\ forallb (fun ev => negb (isConfirm ev)) rest = true.
Proof.
  destruct (qbcliJson w) as [cfg|] eqn:Hcfg.
  2:{ exists (Returned tt), [], [], [AlertError MSG_NOT_AT_ROOT]. split.
      { unfold IndexJs.deployBranch. run_js. by rewrite Hcfg. }
      auto. }
  destruct (filesConf cfg) as [fcs|] eqn:Hfiles.
  2:{ eexists _, [], [], []. split.
      { unfold IndexJs.deployBranch. run_js. rewrite Hcfg, Hfiles.
        cbn [app map]. by rewrite addTrace_nil. }
      auto. }
  destruct (decide (fcs = [])) as [Hnil | Hne].
  { exists (Returned tt), [], [], [AlertError MSG_NO_FILES_LISTED].
    split; [exact (deploy_no_files O t w cfg fcs Hcfg Hfiles Hnil) | auto]. }
  destruct (configstore w !! repositoryId cfg) as [configs|] eqn:Hstore.
  2:{ exists (Returned tt), [], [], [AlertError MSG_NOT_INITIALIZED].
      split; [|auto].
      exact (deploy_not_initialized O t w cfg fcs Hcfg Hfiles Hne Hstore). }
  destruct (confirms O t) eqn:Hyes.
  2:{ exists (Returned tt), (confirmEvents t), [], []. split; [|auto].
      rewrite app_nil_r.
      exact (deploy_declined O t w cfg fcs Hcfg Hfiles configs Hne Hstore Hyes). }
  destruct (Helpers.prefixGenerator (prefixConfigOf cfg configs) t
                                    (repositoryId cfg)) as [e | prefix] eqn:Hgen.
  { exists (Thrown e), (confirmEvents t), [], []. split; [|auto].
    rewrite app_nil_r.
    exact (deploy_prefix_fails O t w cfg fcs Hcfg Hfiles configs Hne Hstore
                               Hyes e Hgen). }
  destruct (loaded (disk w) fcs) as [|x arr] eqn:Hload.
  { exists (Returned tt), (confirmEvents t), [], [AlertError MSG_NOTHING_LOADED].
    split; [|auto].
    exact (deploy_nothing_loaded O t w cfg fcs Hcfg Hfiles configs Hne Hstore
                                 Hyes prefix Hgen Hload). }
  eexists (Returned tt), (confirmEvents t), _, _. split.
  { rewrite (deploy_batch O t w cfg fcs Hcfg Hfiles configs Hne Hstore Hyes
                          prefix Hgen) by (rewrite Hload; discriminate).
    reflexivity. }
  split; [auto|]. split; [apply readsOf_upsertTrace | apply isConfirm_upsertTrace].
Qed.

(** X2.  A deployment changes nothing but what is printed, read and
    sent: the environment, the manifest, the files on the disk, the
    per-developer records and the keychain are after it what they were
    before, and the events that had happened are still there, in front
    of the new ones. *)
Theorem deployBranch_leaves_the_world_alone
    (O : Oracle) (t : DeploymentType) (w : World) :
  exists (r : Outcome unit) (w' : World) (es : list Event),
    IndexJs.deployBranch O t w = (r, w')
    /\ env w' = env w
    /\ qbcliJson w' = qbcliJson w
    /\ disk w' = disk w
    /\ configstore w' = configstore w
    /\ keychain w' = keychain w
    /\ trace w' = trace w ++ es.
Proof.
  destruct (deployBranch_shape O t w) as (r & c & names & rest & Hrun & _).
  exists r, (addTrace w (c ++ map ReadFile names ++ rest)),
    (c ++ map ReadFile names ++ rest).
  split; [exact Hrun|]. repeat split.
Qed.

(** X3.  Every file is read before the first request is sent: the new
    events split into a first part without request and a second part
    without read. *)
Theorem deployBranch_reads_before_it_posts
    (O : Oracle) (t : DeploymentType) (w : World) :
  exists (r : Outcome unit) (w' : World) (before after : list Event),
    IndexJs.deployBranch O t w = (r, w')
    /\ trace w' = trace w ++ before ++ after
    /\ requestsOf before = []
    /\ readsOf after = [].
Proof.
  destruct (deployBranch_shape O t w)
    as (r & c & names & rest & Hrun & Hc & Hreads & _).
  exists r, (addTrace w (c ++ map ReadFile names ++ rest)),
    (c ++ map ReadFile names), rest.
  split; [exact Hrun|]. split; [|split].
  - cbn [trace addTrace]. by rewrite <- app_assoc.
  - rewrite requestsOf_app, requestsOf_reads, app_nil_r.
    destruct Hc as [-> | ->]; [done | apply requestsOf_confirm].
  - exact Hreads.
Qed.

(** X4.  A feature deployment never asks for a confirmation. *)
Theorem feature_deployment_never_prompts (O : Oracle) (w : World) :
  exists (r : Outcome unit) (w' : World) (es : list Event),
    IndexJs.deployBranch O Feat w = (r, w')
    /\ trace w' = trace w ++ es
    /\ forallb (fun ev => negb (isConfirm ev)) es = true.
Proof.
  destruct (deployBranch_shape O Feat w)
    as (r & c & names & rest & Hrun & Hc & _ & Hrest).
  exists r, (addTrace w (c ++ map ReadFile names ++ rest)),
    (c ++ map ReadFile names ++ rest).
  split; [exact Hrun|]. split; [reflexivity|].
  assert (c = []) as -> by (destruct Hc as [-> | ->]; reflexivity).
  cbn [app]. rewrite forallb_app, Hrest, andb_true_r.
  clear. induction names as [|n names IH]; [done | exact IH].
Qed.

(** ** The checks in front of a deployment *)

(** X5.  Without a manifest in the working directory, a deployment only
    prints that the command must be run from the root of the project:
    no prompt, no read, no request. *)
Theorem deploy_without_manifest_only_complains
    (O : Oracle) (t : DeploymentType) (w : World) :
  qbcliJson w = None ->
  IndexJs.deployBranch O t w
  = (Returned tt, addTrace w [AlertError MSG_NOT_AT_ROOT]).
Proof.
  intros Hcfg. unfold IndexJs.deployBranch. run_js. by rewrite Hcfg.
Qed.

(** No manifest: the one error. *)
Lemma deploy_without_manifest_only_complains_witness :
  IndexJs.deployBranch Scenario.accepting Prod Scenario2.fresh
  = (Returned tt, addTrace Scenario2.fresh [AlertError MSG_NOT_AT_ROOT]).
Proof.
  apply deploy_without_manifest_only_complains. reflexivity.
Defined.

Lemma plainId_repo : plainId (Some "repo"%string).
Proof.
  exists "repo"%string. split; [reflexivity|].
  unfold lacks. vm_compute. intuition discriminate.
Qed.

Lemma plainStore_empty : plainStore ∅.
Proof. intros k [x Hx]. by rewrite lookup_empty in Hx. Qed.

(** X6.  When the manifest lists files and names its repository by a
    string without a dot, and the Configstore, whose keys are such
    strings, has no record for that repository, a deployment prints
    that the project was never initialized and stops there: the user is
    not prompted, no file is read and no request is sent. *)
Theorem deploy_without_record_stops_before_prompt
    (O : Oracle) (t : DeploymentType) (w : World) (cfg : Manifest)
    (fcs : list FileConf) :
  qbcliJson w = Some cfg ->
  filesConf cfg = Some fcs ->
  fcs <> [] ->
  plainId (repositoryId cfg) ->
  plainStore (configstore w) ->
  configstore w !! repositoryId cfg = None ->
  exists w',
    IndexJs.deployBranch O t w = (Returned tt, w')
    /\ trace w' = trace w ++ [AlertError MSG_NOT_INITIALIZED]
    /\ readsOf (trace w') = readsOf (trace w)
    /\ requestsOf (trace w') = requestsOf (trace w).
Proof.
  intros Hcfg Hfiles Hne _ _ Hstore. eexists. split.
  { exact (deploy_not_initialized O t w cfg fcs Hcfg Hfiles Hne Hstore). }
  cbn [trace addTrace]. rewrite readsOf_app, requestsOf_app, !app_nil_r.
  repeat split.
Qed.

(** A manifest whose repository was never initialized on this machine. *)
Lemma deploy_without_record_stops_before_prompt_witness :
  exists w',
    IndexJs.deployBranch Scenario.accepting Prod Scenario2.neverInitialized
      = (Returned tt, w')
    /\ trace w' = [AlertError MSG_NOT_INITIALIZED].
Proof.
  destruct (deploy_without_record_stops_before_prompt
              Scenario.accepting Prod Scenario2.neverInitialized
              (Scenario.manifestOf (Some "P"%string)
                 [Scenario.entry "a.js" FlagAbsent])
              [Scenario.entry "a.js" FlagAbsent])
    as (w' & Hrun & Htrace & _);
    [reflexivity | reflexivity | discriminate | exact plainId_repo
    | exact plainStore_empty | by vm_compute | ].
  exists w'. split; [exact Hrun | exact Htrace].
Defined.

(** X7.  A production or development deployment that the user does not
    confirm with the word yes ends after the prompt: nothing is
    printed, no file is read, no request is sent. *)
Theorem unconfirmed_deployment_does_nothing
    (O : Oracle) (t : DeploymentType) (w : World) (cfg : Manifest)
    (fcs : list FileConf) (configs : DevConfig) :
  qbcliJson w = Some cfg ->
  filesConf cfg = Some fcs ->
  fcs <> [] ->
  configstore w !! repositoryId cfg = Some configs ->
  t <> Feat ->
  confirmAnswer O t <> "yes"%string ->
  IndexJs.deployBranch O t w = (Returned tt, addTrace w [Confirm t]).
Proof.
  intros Hcfg Hfiles Hne Hstore Ht Hno.
  assert (confirms O t = false) as Hconf.
  { destruct t; [| |done]; cbn; by apply String.eqb_neq. }
  rewrite (deploy_declined O t w cfg fcs Hcfg Hfiles configs Hne Hstore Hconf).
  by destruct t.
Qed.

(** The user answers no to a production deployment. *)
Lemma unconfirmed_deployment_does_nothing_witness :
  IndexJs.deployBranch Scenario2.declining Prod Scenario.oneFile
  = (Returned tt, addTrace Scenario.oneFile [Confirm Prod]).
Proof.
  apply (unconfirmed_deployment_does_nothing
           Scenario2.declining Prod Scenario.oneFile
           (Scenario.manifestOf (Some "P"%string)
              [Scenario.entry "a.js" (FlagStr "yes")])
           [Scenario.entry "a.js" (FlagStr "yes")]
           (mkDevConfig (Some "F"%string)));
    [reflexivity | reflexivity | discriminate | by vm_compute
    | discriminate | discriminate].
Defined.

(** ** What the loader looks at *)

Lemma loaded_names (d : gmap string string) (fcs : list FileConf) :
  map loadedName (loaded d fcs) = map filename (presentOn d fcs).
Proof.
  induction fcs as [|fc rest IH]; [done|].
  unfold loaded, presentOn in *. cbn [omap list_omap List.filter].
  unfold loadOne at 1.
  destruct (d !! filename fc) as [c|] eqn:Hd.
  - rewrite bool_decide_eq_true_2 by eauto. cbn [map]. by rewrite <- IH.
  - rewrite bool_decide_eq_false_2 by (intros [? ?]; discriminate). exact IH.
Qed.

(** X8.  The loader reads the listed files that are on the disk, each
    as often as it is listed and in the order of the manifest, and
    nothing else; it sends nothing and changes nothing. *)
Theorem loader_reads_the_present_files_in_order
    (w : World) (fcs : list FileConf) (prefix : string) :
  exists (arr : list Loaded) (w' : World),
    IndexJs.getAllFileContents fcs prefix w = (Returned arr, w')
    /\ w' = addTrace w (map ReadFile (map filename (presentOn (disk w) fcs)))
    /\ map loadedName arr = map filename (presentOn (disk w) fcs)
    /\ length arr <= length fcs.
Proof.
  eexists. eexists. split; [apply getAllFileContents_run|].
  split; [by rewrite loaded_names|]. split; [apply loaded_names|].
  unfold loaded. clear. induction fcs as [|fc rest IH]; [done|].
  cbn [omap list_omap]. destruct (loadOne (disk w) fc); cbn [length]; lia.
Qed.

Lemma loaded_ext (d : gmap string string) (fcs1 : list FileConf) :
  forall fcs2 : list FileConf,
    map filename fcs1 = map filename fcs2 ->
    map (fun f => isYes (isIndexFile f)) fcs1
      = map (fun f => isYes (isIndexFile f)) fcs2 ->
    loaded d fcs1 = loaded d fcs2.
Proof.
  induction fcs1 as [|f1 r1 IH]; intros [|f2 r2] Hn Hi; try discriminate;
    [done|].
  cbn in Hn, Hi. injection Hn as Hn1 Hn. injection Hi as Hi1 Hi.
  unfold loaded in *. cbn [omap list_omap]. rewrite (IH r2 Hn Hi).
  unfold loadOne. rewrite Hn1, Hi1. reflexivity.
Qed.

(** X9.  The loader looks a file up under its [filename] alone and
    marks it by comparing [isIndexFile] with the word yes: the [path]
    and the [dependencies] of an entry, and the prefix that is passed,
    play no part in what is loaded. *)
Theorem loader_ignores_path_dependencies_and_prefix
    (w : World) (fcs1 fcs2 : list FileConf) (prefix1 prefix2 : string) :
  map filename fcs1 = map filename fcs2 ->
  map (fun f => isYes (isIndexFile f)) fcs1
    = map (fun f => isYes (isIndexFile f)) fcs2 ->
  IndexJs.getAllFileContents fcs1 prefix1 w
  = IndexJs.getAllFileContents fcs2 prefix2 w.
Proof.
  intros Hn Hi. rewrite !getAllFileContents_run.
  by rewrite (loaded_ext (disk w) fcs1 fcs2 Hn Hi).
Qed.

(** The same file listed under another path and with dependencies. *)
Lemma loader_ignores_path_dependencies_and_prefix_witness :
  IndexJs.getAllFileContents
    [mkFileConf "a.js" (Some "./src/") None (FlagStr "yes")] "P"
    Scenario.oneFile
  = IndexJs.getAllFileContents
      [mkFileConf "a.js" (Some "./elsewhere/") (Some [1; 2]) (FlagStr "yes")]
      "D" Scenario.oneFile.
Proof.
  apply loader_ignores_path_dependencies_and_prefix; reflexivity.
Defined.

(** ** [init] in [src/index.js] *)

(** X10.  [init] always returns, and leaves the three prefix variables
    of the environment set to a value that is not empty: the value they
    had when it was not empty, and otherwise D, P and F; no other
    variable changes. *)
Theorem init_fills_in_the_prefix_variables (O : Oracle) (w : World) :
  exists w',
    IndexJs.initBranch O w = (Returned tt, w')
    /\ env w' !! "CUSTOM_PREFIX"
       = Some (defaulted (env w) "CUSTOM_PREFIX" "D")
    /\ env w' !! "CUSTOM_PREFIX_PROD"
       = Some (defaulted (env w) "CUSTOM_PREFIX_PROD" "P")
    /\ env w' !! "CUSTOM_PREFIX_FEATURE"
       = Some (defaulted (env w) "CUSTOM_PREFIX_FEATURE" "F")
    /\ (forall k v x, env w !! k = Some x -> x <> ""%string ->
                      defaulted (env w) k v = x)
    /\ (forall k v, v <> ""%string ->
                    truthy (Some (defaulted (env w) k v)) = true)
    /\ (forall k,
          k <> "CUSTOM_PREFIX"%string -> k <> "CUSTOM_PREFIX_PROD"%string ->
          k <> "CUSTOM_PREFIX_FEATURE"%string ->
          env w' !! k = env w !! k).
Proof.
  eexists. split; [apply index_init_world|]. cbn [env]. unfold envOfInit.
  split; [|split; [|split; [|split; [|split]]]].
  - rewrite lookup_insert_ne, lookup_insert_ne by discriminate.
    apply lookup_insert_eq.
  - rewrite lookup_insert_ne by discriminate. apply lookup_insert_eq.
  - apply lookup_insert_eq.
  - intros k v x. apply defaulted_keeps.
  - intros k v. apply defaulted_truthy.
  - intros k H1 H2 H3. by rewrite !lookup_insert_ne.
Qed.

(** X11.  In a directory without manifest, an [init] whose write
    succeeds leaves the manifest of the template: an empty query
    string, the two example files, the development prefix of the
    environment or D, and the repository, the target and the realm of
    the environment.  The production prefix is read from
    [CUSTOM_PREFIX_PRODUCTION] as the environment has it; the default P,
    which is stored under [CUSTOM_PREFIX_PROD], does not reach it. *)
Theorem init_without_manifest_writes_the_template (O : Oracle) (w : World) :
  qbcliJson w = None ->
  saveJSONFailure O = None ->
  exists w' m,
    IndexJs.initBranch O w = (Returned tt, w')
    /\ qbcliJson w' = Some m
    /\ trace w' = trace w ++ [AlertSuccess MSG_INIT_DONE]
    /\ urlQueryString m = Some ""%string
    /\ filesConf m = Some Template.exampleFilesConf
    /\ devPrefix m = Some (defaulted (env w) "CUSTOM_PREFIX" "D")
    /\ prodPrefix m = env w !! "CUSTOM_PREFIX_PRODUCTION"
    /\ repositoryId m = env w !! "REPOSITORY_ID"
    /\ dbid m = env w !! "DBID"
    /\ realm m = env w !! "REALM".
Proof.
  intros Hnone Hsave. eexists. eexists. split; [apply index_init_world|].
  rewrite Hsave, Hnone. cbn [qbcliJson trace manifestOfInit].
  split; [reflexivity|]. split; [reflexivity|].
  unfold templateOf, envOfInit.
  cbn [urlQueryString filesConf devPrefix prodPrefix repositoryId dbid realm].
  repeat split.
  - rewrite lookup_insert_ne, lookup_insert_ne by discriminate.
    apply lookup_insert_eq.
  - by rewrite !lookup_insert_ne.
  - by rewrite !lookup_insert_ne.
  - by rewrite !lookup_insert_ne.
  - by rewrite !lookup_insert_ne.
Qed.

(** A first [init]: no production prefix in the environment, none in
    the manifest. *)
Lemma init_without_manifest_writes_the_template_witness :
  exists w' m,
    IndexJs.initBranch Scenario.accepting Scenario2.fresh = (Returned tt, w')
    /\ qbcliJson w' = Some m
    /\ devPrefix m = Some "D"%string
    /\ prodPrefix m = None
    /\ repositoryId m = Some "repo"%string.
Proof.
  destruct (init_without_manifest_writes_the_template
              Scenario.accepting Scenario2.fresh eq_refl eq_refl)
    as (w' & m & Hrun & Hm & _ & _ & _ & Hdev & Hprod & Hrepo & _).
  exists w', m. split; [exact Hrun|]. split; [exact Hm|].
  split; [exact Hdev|]. split; [exact Hprod | exact Hrepo].
Defined.

(** X12.  When the environment names the repository by a string
    without a dot and the keys of the Configstore are such strings,
    [init] stores the feature prefix, which is never empty, under that
    repository and touches no other record; when the write of the
    manifest succeeds, that repository is the one of the new manifest,
    so that [getConfiguration] finds the record for it. *)
Theorem init_record_is_found_for_the_new_manifest
    (O : Oracle) (w : World) (id : string) :
  saveJSONFailure O = None ->
  env w !! "REPOSITORY_ID" = Some id ->
  lacks "." id ->
  plainStore (configstore w) ->
  exists w' m p,
    IndexJs.initBranch O w = (Returned tt, w')
    /\ qbcliJson w' = Some m
    /\ repositoryId m = Some id
    /\ IndexJs.getConfiguration (repositoryId m) w'
       = (Returned (Some (mkDevConfig (Some p))), w')
    /\ p = defaulted (env w) "CUSTOM_PREFIX_FEATURE" "F"
    /\ truthy (Some p) = true
    /\ (forall k, k <> Some id ->
                  configstore w' !! k = configstore w !! k)
    /\ plainStore (configstore w').
Proof.
  intros Hsave Hid Hplain Hstore. eexists. eexists. eexists.
  split; [apply index_init_world|]. rewrite Hsave, Hid. cbn [qbcliJson].
  split; [reflexivity|].
  assert (repositoryId (manifestOfInit (qbcliJson w)
                          (templateOf (envOfInit (env w))))
          = Some id) as ->.
  { destruct (qbcliJson w); cbn; by rewrite envOfInit_other. }
  split; [reflexivity|]. split; [|split; [reflexivity|split; [|split]]].
  - unfold IndexJs.getConfiguration. run_js. cbn [configstore].
    by rewrite lookup_insert_eq.
  - by apply defaulted_truthy.
  - intros k Hk. cbn [configstore]. by rewrite lookup_insert_ne.
  - intros k. cbn [configstore]. destruct (decide (k = Some id)) as [-> | Hk].
    + intros _. by exists id.
    + rewrite lookup_insert_ne by done. apply Hstore.
Qed.

(** After a first [init], the record of the repository holds F. *)
Lemma init_record_is_found_for_the_new_manifest_witness :
  exists w' m,
    IndexJs.initBranch Scenario.accepting Scenario2.fresh = (Returned tt, w')
    /\ qbcliJson w' = Some m
    /\ IndexJs.getConfiguration (repositoryId m) w'
       = (Returned (Some (mkDevConfig (Some "F"%string))), w').
Proof.
  destruct (init_record_is_found_for_the_new_manifest
              Scenario.accepting Scenario2.fresh "repo" eq_refl eq_refl)
    as (w' & m & p & Hrun & Hm & _ & Hget & -> & _).
  - unfold lacks. vm_compute. intuition discriminate.
  - exact plainStore_empty.
  - exists w', m. split; [exact Hrun|]. split; [exact Hm | exact Hget].
Defined.

(** X13.  When the manifest cannot be written, [init] prints one error
    and no success message, and the manifest on the disk is the one
    that was there; when the environment names the repository by a
    string without a dot, the feature prefix has been stored in the
    Configstore under it all the same. *)
Theorem init_write_failure_keeps_the_manifest
    (O : Oracle) (w : World) (msg id : string) :
  saveJSONFailure O = Some msg ->
  env w !! "REPOSITORY_ID" = Some id ->
  lacks "." id ->
  exists w' shown,
    IndexJs.initBranch O w = (Returned tt, w')
    /\ qbcliJson w' = qbcliJson w
    /\ trace w' = trace w ++ [AlertError shown]
    /\ configstore w' !! Some id
       = Some (mkDevConfig
                 (Some (defaulted (env w) "CUSTOM_PREFIX_FEATURE" "F"))).
Proof.
  intros Hsave Hid _. eexists. eexists. split; [apply index_init_world|].
  rewrite Hsave, Hid. cbn [qbcliJson trace configstore].
  repeat split. apply lookup_insert_eq.
Qed.

(** A disk that refuses the write. *)
Lemma init_write_failure_keeps_the_manifest_witness :
  exists w' shown,
    IndexJs.initBranch Scenario2.readOnlyDisk Scenario2.again
      = (Returned tt, w')
    /\ qbcliJson w' = qbcliJson Scenario2.again
    /\ trace w' = [AlertError shown]
    /\ is_Some (configstore w' !! Some "repo"%string).
Proof.
  destruct (init_write_failure_keeps_the_manifest
              Scenario2.readOnlyDisk Scenario2.again "EACCES" "repo"
              eq_refl eq_refl)
    as (w' & shown & Hrun & Hm & Htrace & Hrec).
  - unfold lacks. vm_compute. intuition discriminate.
  - exists w', shown. split; [exact Hrun|]. split; [exact Hm|].
    split; [exact Htrace|]. rewrite Hrec. by eexists.
Defined.

(** ** [init] in [src/unnamed/part_000] *)

Lemma tokenKey_inj (r : option string) (s1 s2 : string) :
  s1 <> s2 -> tokenKey r s1 <> tokenKey r s2.
Proof.
  intros Hne Heq. apply Hne. unfold tokenKey in Heq.
  exact (String.app_inj (str r) s1 s2 Heq).
Qed.

(** X14.  When the keychain refuses the tokens, the [init] of
    [part_000] prints two errors for every token (two tokens, or four
    when development and production have applications of their own),
    leaves the keychain as it was, and still writes the manifest and
    prints that it was created. *)
Theorem part000_init_survives_keychain_failure
    (O : Oracle) (w : World) (m : string) :
  keytarFailure O = Some m ->
  saveJSONFailure O = None ->
  let input := promptInput O (qbcliJson w) in
  let tokens :=
    if bool_decide (in_devAndProdQuickBaseApplications input = Some "yes"%string)
    then 4 else 2 in
  exists w' d,
    Part000.initBranch O w = (Returned tt, w')
    /\ qbcliJson w' = Some d
    /\ keychain w' = keychain w
    /\ trace w'
       = trace w
         ++ concat (replicate tokens
                      [AlertError Part000.MSG_KEYTAR; AlertError m])
         ++ [AlertSuccess MSG_INIT_DONE].
Proof.
  intros Hkey Hsave input tokens.
  unfold Part000.initBranch, Part000.setSecureToken,
    Part000.saveFeaturePrefix, Template.qbcliTemplate, Files.saveJSONToFile.
  subst tokens input. run_js.
  destruct (keytarFailure O) as [m'|]; [injection Hkey as ->|discriminate].
  destruct (saveJSONFailure O); [discriminate|].
  case_bool_decide;
    eexists; eexists; (split; [reflexivity|]);
    cbn [qbcliJson keychain trace addTrace setConfig setQbcliJson];
    (split; [reflexivity|]); (split; [reflexivity|]);
    cbn [replicate concat app]; rewrite <- !app_assoc; reflexivity.
Qed.

(** A keychain that is not available. *)
Lemma part000_init_survives_keychain_failure_witness :
  exists w' d,
    Part000.initBranch Scenario2.keytarDown Scenario2.fresh = (Returned tt, w')
    /\ qbcliJson w' = Some d
    /\ keychain w' = ∅
    /\ length (trace w') = 5.
Proof.
  destruct (part000_init_survives_keychain_failure
              Scenario2.keytarDown Scenario2.fresh "libsecret missing"
              eq_refl eq_refl)
    as (w' & d & Hrun & Hd & Hkc & Htrace).
  exists w', d. split; [exact Hrun|]. split; [exact Hd|].
  split; [exact Hkc|]. rewrite Htrace. reflexivity.
Defined.

(** X15.  When the keychain accepts them, the [init] of [part_000]
    stores the user token and the application token under the
    repository identifier followed by [ut] and [at], and, exactly when
    development and production have applications of their own, the
    development tokens under [utd] and [atd]; reading a key back gives
    the token that was entered. *)
Theorem part000_init_stores_the_tokens (O : Oracle) (w : World) :
  keytarFailure O = None ->
  let input := promptInput O (qbcliJson w) in
  let r := in_repositoryId input in
  exists w',
    Part000.initBranch O w = (Returned tt, w')
    /\ keychain w' !! tokenKey r "ut" = Some (in_usertoken input)
    /\ keychain w' !! tokenKey r "at" = Some (in_apptoken input)
    /\ (in_devAndProdQuickBaseApplications input = Some "yes"%string ->
        keychain w' !! tokenKey r "utd" = Some (in_devUsertoken input)
        /\ keychain w' !! tokenKey r "atd" = Some (in_devApptoken input))
    /\ (in_devAndProdQuickBaseApplications input <> Some "yes"%string ->
        keychain w' !! tokenKey r "utd" = keychain w !! tokenKey r "utd"
        /\ keychain w' !! tokenKey r "atd" = keychain w !! tokenKey r "atd").
Proof.
  intros Hkey input r.
  unfold Part000.initBranch, Part000.setSecureToken,
    Part000.saveFeaturePrefix, Template.qbcliTemplate, Files.saveJSONToFile.
  run_js. destruct (keytarFailure O); [discriminate|].
  fold input. fold r.
  fold (tokenKey r "ut") (tokenKey r "at") (tokenKey r "utd") (tokenKey r "atd").
  pose proof (tokenKey_inj r) as Hinj.
  case_bool_decide as Hdev;
    destruct (saveJSONFailure O);
    (eexists; split; [reflexivity|]);
    cbn [keychain setSecret setConfig setQbcliJson addTrace];
    (split; [|split; [|split]]);
    try (intros Hyes; try contradiction; split);
    rewrite ?lookup_insert_eq;
    repeat (rewrite lookup_insert_ne by (apply Hinj; discriminate);
            rewrite ?lookup_insert_eq);
    try reflexivity; try (intros Hno; contradiction).
Qed.

(** The tokens of a project with two applications. *)
Lemma part000_init_stores_the_tokens_witness :
  exists w',
    Part000.initBranch Scenario2.prompted Scenario2.fresh = (Returned tt, w')
    /\ keychain w' !! "repout"%string = Some (Some "u1"%string)
    /\ keychain w' !! "repoatd"%string = Some (Some "a2"%string).
Proof.
  destruct (part000_init_stores_the_tokens
              Scenario2.prompted Scenario2.fresh eq_refl)
    as (w' & Hrun & Hut & _ & Hdev & _).
  exists w'. split; [exact Hrun|]. split; [exact Hut|].
  exact (proj2 (Hdev eq_refl)).
Defined.



(** ** [editPrefix] in [src/index.js] *)

(** X17.  Editing the feature prefix of a project that has a manifest
    and a per-developer record replaces the feature prefix of that
    record by the answer of the prompt: [getConfiguration] returns it
    afterwards, the records of other repositories and the manifest are
    untouched, and the success message is printed. *)
Theorem editPrefix_updates_the_record
    (answer : option string) (args : list Command) (w : World)
    (cfg : Manifest) (configs : DevConfig) :
  includes args EDIT_DEV_PREFIX_CMD = false ->
  includes args EDIT_PROD_PREFIX_CMD = false ->
  includes args EDIT_FEAT_PREFIX_CMD = true ->
  qbcliJson w = Some cfg ->
  configstore w !! repositoryId cfg = Some configs ->
  exists w',
    IndexJs.editPrefix answer args w = (Returned tt, w')
    /\ IndexJs.getConfiguration (repositoryId cfg) w'
       = (Returned (Some (mkDevConfig answer)), w')
    /\ (forall k, k <> repositoryId cfg ->
                  configstore w' !! k = configstore w !! k)
    /\ qbcliJson w' = qbcliJson w
    /\ trace w' = trace w ++ [AlertSuccess IndexJs.MSG_FEATURE_PREFIX_UPDATED].
Proof.
  intros Hdev Hprod Hfeat Hcfg Hstore.
  unfold IndexJs.editPrefix, IndexJs.getConfiguration.
  rewrite Hdev, Hprod, Hfeat. cbn [orb]. run_js. rewrite Hcfg. cbv beta iota.
  rewrite Hstore.
  eexists. split; [reflexivity|].
  cbn [configstore qbcliJson trace addTrace setConfig].
  split; [by rewrite lookup_insert_eq|]. split; [|split; [exact Hcfg | reflexivity]].
  intros k Hk. by rewrite lookup_insert_ne.
Qed.

(** The feature prefix of the scenario becomes X. *)
Lemma editPrefix_updates_the_record_witness :
  exists w',
    IndexJs.editPrefix (Some "X"%string) [EDIT_FEAT_PREFIX_CMD] Scenario.oneFile
      = (Returned tt, w')
    /\ configstore w' !! Some "repo"%string
       = Some (mkDevConfig (Some "X"%string)).
Proof.
  destruct (editPrefix_updates_the_record
              (Some "X"%string) [EDIT_FEAT_PREFIX_CMD] Scenario.oneFile
              (Scenario.manifestOf (Some "P"%string)
                 [Scenario.entry "a.js" (FlagStr "yes")])
              (mkDevConfig (Some "F"%string)))
    as (w' & Hrun & Hget & _);
    [reflexivity | reflexivity | reflexivity | reflexivity | by vm_compute | ].
  exists w'. split; [exact Hrun|].
  unfold IndexJs.getConfiguration in Hget. cbv [bind ret getWorld] in Hget.
  by injection Hget.
Defined.

(** X18.  [editPrefix] always returns and prints at most one message.
    It never changes the environment, the manifest, the disk or the
    keychain, and it never creates a record: the Configstore is left as
    it was unless the command is the feature one alone, a manifest is
    there and its repository already has a record, which is then the
    only record that changes. *)
Theorem editPrefix_never_creates_a_record
    (answer : option string) (args : list Command) (w : World) :
  exists (w' : World) (es : list Event),
    IndexJs.editPrefix answer args w = (Returned tt, w')
    /\ trace w' = trace w ++ es
    /\ length es <= 1
    /\ env w' = env w
    /\ qbcliJson w' = qbcliJson w
    /\ disk w' = disk w
    /\ keychain w' = keychain w
    /\ (configstore w' = configstore w
        \/ exists cfg configs,
             includes args EDIT_DEV_PREFIX_CMD = false
             /\ includes args EDIT_PROD_PREFIX_CMD = false
             /\ includes args EDIT_FEAT_PREFIX_CMD = true
             /\ qbcliJson w = Some cfg
             /\ configstore w !! repositoryId cfg = Some configs
             /\ configstore w'
                = <[repositoryId cfg := mkDevConfig answer]> (configstore w)).
Proof.
  unfold IndexJs.editPrefix, IndexJs.getConfiguration.
  destruct (includes args EDIT_DEV_PREFIX_CMD) eqn:Hdev;
    [eexists _, [_]; split; [reflexivity|]; cbn; repeat split; auto|].
  destruct (includes args EDIT_PROD_PREFIX_CMD) eqn:Hprod;
    [eexists _, [_]; split; [reflexivity|]; cbn; repeat split; auto|].
  cbn [orb].
  destruct (includes args EDIT_FEAT_PREFIX_CMD) eqn:Hfeat.
  2:{ exists w, []. split; [reflexivity|]. rewrite app_nil_r.
      cbn. repeat split; auto. }
  run_js.
  destruct (qbcliJson w) as [cfg|] eqn:Hcfg.
  2:{ eexists _, [_]. split; [reflexivity|]. cbn. rewrite Hcfg.
      repeat split; auto. }
  destruct (configstore w !! repositoryId cfg) as [configs|] eqn:Hstore.
  2:{ eexists _, [_]. split; [reflexivity|]. cbn. rewrite Hcfg.
      repeat split; auto. }
  eexists _, [_]. split; [reflexivity|]. cbn. rewrite Hcfg.
  repeat split; auto. right. exists cfg, configs. repeat split; auto.
Qed.

(** ** The dispatch of [run] *)

Lemma includes_Permutation (args1 args2 : list Command) (c : Command) :
  Permutation args1 args2 -> includes args1 c = includes args2 c.
Proof.
  intros Hperm. unfold includes.
  induction Hperm as [|x l l' _ IH|x y l|l l' l'' _ IH1 _ IH2]; cbn.
  - reflexivity.
  - by rewrite IH.
  - by rewrite !orb_assoc, (orb_comm (Command_eqb c y)).
  - by rewrite IH1.
Qed.

(** X19.  For the commands [init] and the three deployments, the order
    of the words in [args._] does not matter: [run] does the same for
    two lists of positional words that hold the same words. *)
Theorem run_ignores_the_order_of_the_words
    (otherCommands : list Command -> M unit) (O : Oracle)
    (args1 args2 : list Command) :
  Permutation args1 args2 ->
  includes args1 DEPLOYQB_INIT_CMD || includes args1 DEPLOY_DEV_CMD
    || includes args1 DEPLOY_PROD_CMD || includes args1 DEPLOY_FEAT_CMD = true ->
  IndexJs.run otherCommands O args1 = IndexJs.run otherCommands O args2.
Proof.
  intros Hperm Hsome. unfold IndexJs.run, IndexJs.getDeploymentType.
  rewrite <- !(includes_Permutation args1 args2 _ Hperm).
  destruct (includes args1 DEPLOYQB_INIT_CMD); [reflexivity|].
  destruct (includes args1 DEPLOY_DEV_CMD); [reflexivity|].
  destruct (includes args1 DEPLOY_PROD_CMD); [reflexivity|].
  destruct (includes args1 DEPLOY_FEAT_CMD); [reflexivity | discriminate].
Qed.

(** The words feat and prod in two orders. *)
Lemma run_ignores_the_order_of_the_words_witness :
  IndexJs.run (fun _ => ret tt) Scenario.accepting
              [DEPLOY_FEAT_CMD; DEPLOY_PROD_CMD]
  = IndexJs.run (fun _ => ret tt) Scenario.accepting
                [DEPLOY_PROD_CMD; DEPLOY_FEAT_CMD].
Proof.
  apply run_ignores_the_order_of_the_words; [apply perm_swap | reflexivity].
Defined.

(** X20.  [init] goes before every other command, and among the
    deployments development goes before production, and production
    before feature, whatever else is on the command line. *)
Theorem run_prefers_init_then_dev_prod_feat
    (otherCommands : list Command -> M unit) (O : Oracle)
    (args : list Command) :
  (includes args DEPLOYQB_INIT_CMD = true ->
   IndexJs.run otherCommands O args = IndexJs.initBranch O)
  /\ (includes args DEPLOYQB_INIT_CMD = false ->
      includes args DEPLOY_DEV_CMD = true ->
      IndexJs.run otherCommands O args = IndexJs.deployBranch O Dev)
  /\ (includes args DEPLOYQB_INIT_CMD = false ->
      includes args DEPLOY_DEV_CMD = false ->
      includes args DEPLOY_PROD_CMD = true ->
      IndexJs.run otherCommands O args = IndexJs.deployBranch O Prod)
  /\ (includes args DEPLOYQB_INIT_CMD = false ->
      includes args DEPLOY_DEV_CMD = false ->
      includes args DEPLOY_PROD_CMD = false ->
      includes args DEPLOY_FEAT_CMD = true ->
      IndexJs.run otherCommands O args = IndexJs.deployBranch O Feat)
  /\ (includes args DEPLOYQB_INIT_CMD = false ->
      includes args DEPLOY_DEV_CMD = false ->
      includes args DEPLOY_PROD_CMD = false ->
      includes args DEPLOY_FEAT_CMD = false ->
      IndexJs.run otherCommands O args = otherCommands args).
Proof.
  unfold IndexJs.run, IndexJs.getDeploymentType.
  repeat split; intros; repeat match goal with H : includes _ _ = _ |- _ =>
    rewrite H; clear H end; reflexivity.
Qed.

(** ** The deploy branch of [src/unnamed/part_000] *)

Lemma part000_past_checks (O : Oracle) (t : DeploymentType) (w : World)
    (cfg : Manifest) (fcs : list FileConf) (configs : DevConfig)
    (prefix : string) :
  qbcliJson w = Some cfg ->
  filesConf cfg = Some fcs ->
  fcs <> [] ->
  configstore w !! repositoryId cfg = Some configs ->
  confirms O t = true ->
  Helpers.prefixGenerator (prefixConfigOf cfg configs) t (repositoryId cfg)
    = inr prefix ->
  Part000.deployBranch O t w
  = (Returned tt,
     addTrace w (confirmEvents t ++ [AlertError MSG_LOADING_THREW])).
Proof.
  intros Hcfg Hfiles Hne Hstore Hyes Hgen.
  unfold Part000.deployBranch, Part000.getConfiguration, unbound. run_js.
  rewrite Hcfg, Hfiles. destruct fcs; [done|].
  cbn [length Nat.ltb Nat.leb]. rewrite Hstore.
  unfold prefixConfigOf in Hgen.
  destruct t; cbn [confirms] in Hyes; try rewrite Hyes; rewrite Hgen;
    cbn [confirmEvents app]; unfold addTrace; cbn [trace env];
    rewrite <- ?app_assoc; reflexivity.
Qed.

(** Either a check in front of the loading stops both variants in the
    same way, or the checks are passed and [part_000] ends in its
    [catch]. *)
Lemma part000_cases (O : Oracle) (t : DeploymentType) (w : World) :
  (Part000.deployBranch O t w = IndexJs.deployBranch O t w
   /\ exists r es,
        IndexJs.deployBranch O t w = (r, addTrace w es)
        /\ requestsOf es = [] /\ readsOf es = [])
  \/ (exists cfg fcs configs prefix,
        qbcliJson w = Some cfg
        /\ filesConf cfg = Some fcs
        /\ fcs <> []
        /\ configstore w !! repositoryId cfg = Some configs
        /\ confirms O t = true
        /\ Helpers.prefixGenerator (prefixConfigOf cfg configs) t
                                   (repositoryId cfg) = inr prefix
        /\ Part000.deployBranch O t w
           = (Returned tt,
              addTrace w (confirmEvents t ++ [AlertError MSG_LOADING_THREW]))).
Proof.
  destruct (qbcliJson w) as [cfg|] eqn:Hcfg.
  2:{ left. split.
      - unfold Part000.deployBranch, IndexJs.deployBranch. run_js.
        by rewrite Hcfg.
      - eexists _, [_]. split;
          [unfold IndexJs.deployBranch; run_js; by rewrite Hcfg | done]. }
  destruct (filesConf cfg) as [fcs|] eqn:Hfiles.
  2:{ left. split.
      - unfold Part000.deployBranch, IndexJs.deployBranch. run_js.
        by rewrite Hcfg, Hfiles.
      - eexists _, []. split; [|done].
        unfold IndexJs.deployBranch. run_js. rewrite Hcfg, Hfiles.
        by rewrite addTrace_nil. }
  destruct (decide (fcs = [])) as [Hnil | Hne].
  { left. split.
    - subst fcs. unfold Part000.deployBranch, IndexJs.deployBranch. run_js.
      by rewrite Hcfg, Hfiles.
    - eexists _, [_]. split;
        [exact (deploy_no_files O t w cfg fcs Hcfg Hfiles Hnil) | done]. }
  destruct (configstore w !! repositoryId cfg) as [configs|] eqn:Hstore.
  2:{ left. split.
      - unfold Part000.deployBranch, IndexJs.deployBranch,
          Part000.getConfiguration, IndexJs.getConfiguration. run_js.
        rewrite Hcfg, Hfiles. destruct fcs; [done|].
        cbn [length Nat.ltb Nat.leb]. by rewrite Hstore.
      - eexists _, [_]. split;
          [exact (deploy_not_initialized O t w cfg fcs Hcfg Hfiles Hne Hstore)
          | done]. }
  destruct (confirms O t) eqn:Hyes.
  2:{ left. split.
      - unfold Part000.deployBranch, IndexJs.deployBranch,
          Part000.getConfiguration, IndexJs.getConfiguration. run_js.
        rewrite Hcfg, Hfiles. destruct fcs; [done|].
        cbn [length Nat.ltb Nat.leb]. rewrite Hstore.
        destruct t; cbn [confirms] in Hyes; try discriminate;
          by rewrite Hyes.
      - eexists _, _. split.
        + exact (deploy_declined O t w cfg fcs Hcfg Hfiles configs Hne
                                 Hstore Hyes).
        + split; [apply requestsOf_confirm | apply readsOf_confirm]. }
  destruct (Helpers.prefixGenerator (prefixConfigOf cfg configs) t
                                    (repositoryId cfg)) as [e | prefix] eqn:Hgen.
  { left. split.
    - unfold Part000.deployBranch, IndexJs.deployBranch,
        Part000.getConfiguration, IndexJs.getConfiguration. run_js.
      rewrite Hcfg, Hfiles. destruct fcs; [done|].
      cbn [length Nat.ltb Nat.leb]. rewrite Hstore.
      unfold prefixConfigOf in Hgen.
      destruct t; cbn [confirms] in Hyes; try rewrite Hyes; by rewrite Hgen.
    - eexists _, _. split.
      + exact (deploy_prefix_fails O t w cfg fcs Hcfg Hfiles configs Hne
                                   Hstore Hyes e Hgen).
      + split; [apply requestsOf_confirm | apply readsOf_confirm]. }
  right. exists cfg, fcs, configs, prefix. repeat (split; [done|]).
  by apply (part000_past_checks O t w cfg fcs configs prefix).
Qed.

(** X21.  The deploy branch of [part_000] never reads a file and never
    sends a request, whatever the manifest, the disk, the user and the
    remote service do: it only prints, and asks for the confirmation. *)
Theorem part000_deploy_never_reads_or_sends
    (O : Oracle) (t : DeploymentType) (w : World) :
  exists (r : Outcome unit) (w' : World) (es : list Event),
    Part000.deployBranch O t w = (r, w')
    /\ trace w' = trace w ++ es
    /\ requestsOf es = []
    /\ readsOf es = [].
Proof.
  destruct (part000_cases O t w)
    as [[Heq (r & es & Hrun & Hreq & Hread)]
       | (cfg & fcs & configs & prefix & _ & _ & _ & _ & _ & _ & Hrun)].
  - exists r, (addTrace w es), es. rewrite Heq. auto.
  - eexists _, _, _. split; [exact Hrun|]. split; [reflexivity|].
    rewrite requestsOf_app, readsOf_app, requestsOf_confirm, readsOf_confirm.
    auto.
Qed.

